(** * MAIK: the contract-generation pipeline

    A shallow embedding of [openai-client.ts], [cli.ts], [types.ts] and
    [contract-processor.ts].  The asynchronous methods run strictly one after
    the other, so every [async] function is a computation in a state monad
    that can also throw a JavaScript value or stay blocked on the terminal.

    The state holds what the code reads and writes: the file system, the
    environment, the clock, the lines the user will type, the chat-completion
    provider with the log of the requests sent to it, the terminal, and the
    session object of the [ContractProcessor]. *)

From Stdlib Require Import ZArith NArith QArith List String Ascii DecimalString DecimalZ
  DecimalPos.
From stdpp Require Import gmap list.

Set Default Proof Using "Type".

(** ** JavaScript strings

    A JavaScript string is a sequence of UTF-16 code units; [length] is its
    [.length] and [++] its concatenation. *)

Abbreviation jsstring := (list N).

(** An ASCII literal of the source. *)
Definition lit (s : string) : jsstring :=
  map N_of_ascii (list_ascii_of_string s).

(** The code units [String.prototype.trim] strips: WhiteSpace and
    LineTerminator of ECMAScript. *)
Definition isWhiteSpace (c : N) : bool :=
  match c with
  | 9 | 10 | 11 | 12 | 13 | 32 | 160 | 5760
  | 8232 | 8233 | 8239 | 8287 | 12288 | 65279 => true
  | _ => (8192 <=? c) && (c <=? 8202)
  end%N.

Fixpoint trimStart (s : jsstring) : jsstring :=
  match s with
  | c :: rest => if isWhiteSpace c then trimStart rest else s
  | [] => []
  end.

Definition trimEnd (s : jsstring) : jsstring := rev (trimStart (rev s)).

Definition trim (s : jsstring) : jsstring := trimEnd (trimStart s).

(** [String(n)] for an integer [n]. *)
Definition stringOfInt (n : Z) : jsstring := lit (NilZero.string_of_int (Z.to_int n)).

(** Truthiness of an optional string: [undefined] and [''] are falsy. *)
Definition truthy (v : option jsstring) : bool :=
  match v with
  | Some (_ :: _) => true
  | _ => false
  end.

(** [a || b] where [b] is a string. *)
Definition orElse (a : option jsstring) (b : jsstring) : jsstring :=
  match a with
  | Some (c :: rest) => c :: rest
  | _ => b
  end.

(** [a || undefined]. *)
Definition orUndefined (a : option jsstring) : option jsstring :=
  if truthy a then a else None.

(** ** types.ts *)

Record ProcessConfig := {
  apiKey : jsstring;
  directory : jsstring;
  userPrompt : jsstring;
  outputFile : option jsstring
}.

Record ModelConfig := {
  model : jsstring;
  temperature : Q;
  maxTokens : Q
}.

(** [Partial<ModelConfig>]: a key is present or not. *)
Record PartialModelConfig := {
  model_opt : option jsstring;
  temperature_opt : option Q;
  maxTokens_opt : option Q
}.

Inductive Role := user | assistant | system.

Record Message := { role : Role; content : jsstring }.

Record ContractSession := {
  sessionPrompt : jsstring;
  conversationHistory : list Message;
  contractDraft : option jsstring;
  finalContract : option jsstring
}.

(** ** Values that are thrown

    A thrown value is an [Error] instance, of class [Error] itself or of a
    subclass, or some other value, kept as what [String(value)] gives. *)

Inductive ErrorClass := PlainError | SubclassError (name : jsstring).

Inductive Thrown :=
| ErrorObject (cls : ErrorClass) (message : jsstring)
| NonError (asString : jsstring).

(** [new Error(message)]. *)
Definition newError (message : jsstring) : Thrown := ErrorObject PlainError message.

(** [error instanceof Error ? error.message : String(error)]. *)
Definition errorText (error : Thrown) : jsstring :=
  match error with
  | ErrorObject _ message => message
  | NonError asString => asString
  end.

(** ** The chat-completion endpoint *)

Record Request := {
  bearer : jsstring;
  req_model : jsstring;
  req_messages : list Message;
  req_temperature : Q;
  req_max_tokens : Q
}.

Record ChoiceMessage := { msg_content : option jsstring }.
Record Choice := { choice_message : option ChoiceMessage }.

(** A body with a [choices] array, the shape the SDK declares; a choice may
    still lack its message, and a message its content. *)
Record Response := { choices : list Choice }.

(** The body a call resolves with is whatever the endpoint sent: besides a
    [Response] it may be a body without [choices] (an error object under
    status 200, say), whatever the SDK's type says.  Reading [choices[0]] of
    such a body raises a [TypeError]; its message is worded by the engine
    and is kept with the body. *)
Inductive Body := Shaped (response : Response) | Unshaped (typeErrorMessage : jsstring).

(** The call resolves with a body, or it is rejected with what the SDK
    throws. *)
Inductive Outcome := Resolved (body : Body) | Failed (e : Thrown).

Abbreviation Responded response := (Resolved (Shaped response)).

(** The [TypeError] of reading a property of [undefined] or [null]. *)
Definition typeError (message : jsstring) : Thrown :=
  ErrorObject (SubclassError (lit "TypeError")) message.

(** ** The terminal: the spinner of [ora] and the questions of [inquirer].
    Lines printed with [console.log] and [console.error] are not kept. *)

Inductive Event :=
| SpinnerStart (text : jsstring)
| SpinnerSucceed (text : jsstring)
| SpinnerFail (text : jsstring)
| Asked (question : jsstring)
| Rejected (value : jsstring) (why : jsstring)
| Answered (question : jsstring) (value : jsstring).

(** ** The state *)

Record State := {
  fs : gmap (list N) (list N);
  envKey : option jsstring;
  now : Z;
  provider : list Request -> Request -> Outcome;
  stdin : list jsstring;
  requests : list Request;
  terminal : list Event;
  session : ContractSession
}.

Definition setFs (f : gmap (list N) (list N)) (s : State) : State :=
  {| fs := f; envKey := envKey s; now := now s; provider := provider s;
     stdin := stdin s; requests := requests s; terminal := terminal s;
     session := session s |}.

Definition setStdin (l : list jsstring) (s : State) : State :=
  {| fs := fs s; envKey := envKey s; now := now s; provider := provider s;
     stdin := l; requests := requests s; terminal := terminal s;
     session := session s |}.

Definition setRequests (l : list Request) (s : State) : State :=
  {| fs := fs s; envKey := envKey s; now := now s; provider := provider s;
     stdin := stdin s; requests := l; terminal := terminal s;
     session := session s |}.

Definition setTerminal (l : list Event) (s : State) : State :=
  {| fs := fs s; envKey := envKey s; now := now s; provider := provider s;
     stdin := stdin s; requests := requests s; terminal := l;
     session := session s |}.

Definition setSession (x : ContractSession) (s : State) : State :=
  {| fs := fs s; envKey := envKey s; now := now s; provider := provider s;
     stdin := stdin s; requests := requests s; terminal := terminal s;
     session := x |}.

Definition setHistory (h : list Message) (x : ContractSession) : ContractSession :=
  {| sessionPrompt := sessionPrompt x; conversationHistory := h;
     contractDraft := contractDraft x; finalContract := finalContract x |}.

Definition setDraft (d : option jsstring) (x : ContractSession) : ContractSession :=
  {| sessionPrompt := sessionPrompt x; conversationHistory := conversationHistory x;
     contractDraft := d; finalContract := finalContract x |}.

Definition setFinal (d : option jsstring) (x : ContractSession) : ContractSession :=
  {| sessionPrompt := sessionPrompt x; conversationHistory := conversationHistory x;
     contractDraft := contractDraft x; finalContract := d |}.

(** ** The monad of the asynchronous code

    A computation returns, throws, or never resumes because the terminal
    gives no further answer.  The state reached is kept in all three cases:
    what was mutated before a throw stays mutated. *)

Inductive Result (A : Type) :=
| Ok (a : A)
| Throw (e : Thrown)
| Blocked.

Arguments Ok {A} a.
Arguments Throw {A} e.
Arguments Blocked {A}.

Definition M (A : Type) : Type := State -> Result A * State.

Definition ret {A} (a : A) : M A := fun s => (Ok a, s).

Definition bind {A B} (m : M A) (k : A -> M B) : M B :=
  fun s =>
    match m s with
    | (Ok a, s') => k a s'
    | (Throw e, s') => (Throw e, s')
    | (Blocked, s') => (Blocked, s')
    end.

Definition throw {A} (e : Thrown) : M A := fun s => (Throw e, s).

(** [try { m } catch (error) { handler }]. *)
Definition tryCatch {A} (m : M A) (handler : Thrown -> M A) : M A :=
  fun s =>
    match m s with
    | (Throw e, s') => handler e s'
    | other => other
    end.

Definition gets {A} (f : State -> A) : M A := fun s => (Ok (f s), s).

Definition modify (f : State -> State) : M unit := fun s => (Ok tt, f s).

Declare Scope js_scope.
Delimit Scope js_scope with js.
Notation "x <- m ;; k" := (bind m (fun x => k))
  (at level 100, m at next level, right associativity) : js_scope.
Notation "m ;; k" := (bind m (fun _ => k))
  (at level 100, right associativity) : js_scope.
Open Scope js_scope.

(** ** Primitives of the platform *)

Definition existsSync (path : jsstring) : M bool :=
  gets (fun s => bool_decide (is_Some (fs s !! path))).

Definition readFileSync (path : jsstring) : M jsstring :=
  fun s =>
    match fs s !! path with
    | Some text => (Ok text, s)
    | None => (Throw (ErrorObject (SubclassError (lit "SystemError"))
                        (lit "ENOENT: no such file or directory, open '" ++ path ++ lit "'")), s)
    end.

Definition writeFileSync (path data : jsstring) : M unit :=
  modify (fun s => setFs (<[path := data]> (fs s)) s).

Definition dateNow : M Z := gets now.

Definition emit (e : Event) : M unit :=
  modify (fun s => setTerminal (terminal s ++ [e]) s).

(** [client.chat.completions.create]: the request goes out, and the provider
    answers or fails; its behaviour may depend on all it was sent before. *)
Definition create (r : Request) : M Body :=
  fun s =>
    let s' := setRequests (requests s ++ [r]) s in
    match provider s (requests s) r with
    | Resolved body => (Ok body, s')
    | Failed e => (Throw e, s')
    end.

(** *** inquirer

    An [input] or [password] question reads a line; an empty line stands for
    the default; the value is validated, and a rejected value is asked for
    again.  With no line left the question is never answered. *)

Inductive Validation := Valid | Invalid (why : jsstring).

Definition filterInput (default : option jsstring) (line : jsstring) : jsstring :=
  match line with
  | [] => match default with Some d => d | None => [] end
  | _ => line
  end.

Fixpoint askLoop (message : jsstring) (default : option jsstring)
    (validate : jsstring -> Validation) (lines : list jsstring) (s : State)
    : Result jsstring * State :=
  match lines with
  | [] => (Blocked, setStdin [] s)
  | line :: rest =>
      let value := filterInput default line in
      match validate value with
      | Valid =>
          (Ok value, setTerminal (terminal s ++ [Answered message value]) (setStdin rest s))
      | Invalid why =>
          askLoop message default validate rest
            (setTerminal (terminal s ++ [Rejected value why]) s)
      end
  end.

Definition prompt (message : jsstring) (default : option jsstring)
    (validate : jsstring -> Validation) : M jsstring :=
  emit (Asked message) ;;
  (fun s => askLoop message default validate (stdin s) s).

(** ** openai-client.ts *)

Record OpenAIClient := { client_apiKey : jsstring }.

Definition emptyConfig : PartialModelConfig :=
  {| model_opt := None; temperature_opt := None; maxTokens_opt := None |}.

(** [{ ...defaults, ...config }]. *)
Definition spread (defaults : ModelConfig) (config : PartialModelConfig) : ModelConfig :=
  {| model := default (model defaults) (model_opt config);
     temperature := default (temperature defaults) (temperature_opt config);
     maxTokens := default (maxTokens defaults) (maxTokens_opt config) |}.

(** [choices[0]?.message?.content] for a [choices] array: [undefined] when
    the array is empty, or the first choice has no message, or the message no
    content. *)
Definition firstContent (response : Response) : option jsstring :=
  match choices response with
  | [] => None
  | c :: _ =>
      match choice_message c with
      | None => None
      | Some m => msg_content m
      end
  end.

(** [response.choices[0]?.message?.content]: the read of index 0 is not
    guarded, and throws when the body has no [choices]. *)
Definition readFirstContent (response : Body) : M (option jsstring) :=
  match response with
  | Shaped withChoices => ret (firstContent withChoices)
  | Unshaped message => throw (typeError message)
  end.

Definition chatCompletion (this : OpenAIClient) (messages : list Message)
    (config : PartialModelConfig) : M jsstring :=
  let defaultConfig :=
    spread {| model := lit "gpt-4"; temperature := 7 # 10; maxTokens := 4000 # 1 |} config in
  tryCatch
    (response <- create {| bearer := client_apiKey this;
                           req_model := model defaultConfig;
                           req_messages := messages;
                           req_temperature := temperature defaultConfig;
                           req_max_tokens := maxTokens defaultConfig |} ;;
     content <- readFirstContent response ;;
     ret (orElse content []))
    (fun error => throw (newError (lit "OpenAI API error: " ++ errorText error))).

Definition generateContractStep (this : OpenAIClient) (systemPrompt userMessage : jsstring)
    (history : list Message) : M jsstring :=
  let messages :=
    [ {| role := system; content := systemPrompt |} ]
    ++ history
    ++ [ {| role := user; content := userMessage |} ] in
  chatCompletion this messages emptyConfig.

(** ** contract-processor.ts *)

Definition LF : N := 10%N.

Record ContractProcessor := {
  client : OpenAIClient;
  config : ProcessConfig
}.

(** The constructor; the session object lives in the state. *)
Definition newContractProcessor (config : ProcessConfig) : M ContractProcessor :=
  modify (setSession {| sessionPrompt := userPrompt config;
                        conversationHistory := [];
                        contractDraft := None;
                        finalContract := None |}) ;;
  ret {| client := {| client_apiKey := apiKey config |}; config := config |}.

Definition sessionUserPrompt : M jsstring := gets (fun s => sessionPrompt (session s)).

Definition sessionHistory : M (list Message) :=
  gets (fun s => conversationHistory (session s)).

(** [this.session.conversationHistory.push(...)]. *)
Definition pushHistory (entries : list Message) : M unit :=
  modify (fun s =>
    setSession (setHistory (conversationHistory (session s) ++ entries) (session s)) s).

Section Processor.

(** [join] of Node's [path] module. *)
Variable join : jsstring -> jsstring -> jsstring.

Definition loadPromptFile (this : ContractProcessor) (filename : jsstring) : M jsstring :=
  let filePath := join (directory (config this)) filename in
  present <- existsSync filePath ;;
  if negb present then
    throw (newError (lit "Prompt file not found: " ++ filePath))
  else
    text <- readFileSync filePath ;;
    ret (trim text).

Definition executeStep (this : ContractProcessor) (stepName systemPrompt userMessage : jsstring)
    : M jsstring :=
  emit (SpinnerStart (lit "Executing " ++ stepName ++ lit "...")) ;;
  tryCatch
    (history <- sessionHistory ;;
     response <- generateContractStep (client this) systemPrompt userMessage history ;;
     pushHistory [ {| role := user; content := userMessage |};
                   {| role := assistant; content := response |} ] ;;
     emit (SpinnerSucceed (stepName ++ lit " completed")) ;;
     ret response)
    (fun error =>
       emit (SpinnerFail (stepName ++ lit " failed")) ;;
       throw error).

Definition validateNonEmpty (input : jsstring) : Validation :=
  if (length (trim input) =? 0)%nat then Invalid (lit "Please provide some input") else Valid.

Definition getUserInput (this : ContractProcessor) (question : jsstring)
    (defaultValue : option jsstring) : M jsstring :=
  prompt question defaultValue validateNonEmpty.

(** The system prompt of the final call. *)
Definition finalPromptText (draft verification userAdjustments userExplanation : jsstring)
    : jsstring :=
  lit "You are a legal expert specializing in German freelance contracts. Based on the contract draft, verification feedback, and user input, generate the final improved contract.

Contract Draft:
" ++ draft ++ lit "

Verification Feedback:
" ++ verification ++ lit "

User Adjustments:
" ++ userAdjustments ++ lit "

User Explanation Notes:
" ++ userExplanation ++ lit "

Please generate the final German freelance contract incorporating all necessary improvements from the verification feedback and user input. The contract should be well-structured, legally sound for German jurisdiction, and ready for use.".

Definition generateFinalContract (this : ContractProcessor)
    (draft verification userAdjustments userExplanation : jsstring) : M jsstring :=
  emit (SpinnerStart (lit "Generating final contract...")) ;;
  tryCatch
    (let finalPrompt :=
       finalPromptText draft verification userAdjustments userExplanation in
     history <- sessionHistory ;;
     finalContract <- generateContractStep (client this) finalPrompt
                        (lit "Generate the final German freelance contract") history ;;
     emit (SpinnerSucceed (lit "Final contract generated")) ;;
     ret finalContract)
    (fun error =>
       emit (SpinnerFail (lit "Failed to generate final contract")) ;;
       throw error).

Definition processContract (this : ContractProcessor) : M jsstring :=
  tryCatch
    ((* Step 1: Intake *)
     intakePrompt <- loadPromptFile this (lit "intake.txt") ;;
     request1 <- sessionUserPrompt ;;
     intakeResponse <- executeStep this (lit "Intake") intakePrompt request1 ;;
     userInput1 <- getUserInput this
       (lit "Please provide any additional details or clarifications for the intake:")
       (Some (lit "No additional details needed")) ;;
     (* Step 2: Confirm specifications *)
     confirmPrompt <- loadPromptFile this (lit "confirm_specs.txt") ;;
     request2 <- sessionUserPrompt ;;
     confirmResponse <- executeStep this (lit "Confirmation") confirmPrompt
       (lit "User Request: " ++ request2 ++ [LF; LF]
        ++ lit "Intake Information: " ++ intakeResponse ++ [LF; LF]
        ++ lit "Additional Details: " ++ userInput1) ;;
     userInput2 <- getUserInput this
       (lit "Please confirm these specifications or provide any corrections:")
       (Some (lit "Specifications look good")) ;;
     (* Step 3: Draft the contract *)
     draftPrompt <- loadPromptFile this (lit "draft.txt") ;;
     request3 <- sessionUserPrompt ;;
     draftResponse <- executeStep this (lit "Drafting") draftPrompt
       (lit "User Request: " ++ request3 ++ [LF; LF]
        ++ lit "Confirmed Specifications: " ++ confirmResponse ++ [LF; LF]
        ++ lit "User Confirmation: " ++ userInput2) ;;
     modify (fun s => setSession (setDraft (Some draftResponse) (session s)) s) ;;
     userInput3 <- getUserInput this
       (lit "Please review the draft and provide any feedback or specific requirements:")
       (Some (lit "Draft looks good, proceed with verification")) ;;
     (* Step 4: Verify and improve the contract *)
     verifyPrompt <- loadPromptFile this (lit "verify.txt") ;;
     request4 <- sessionUserPrompt ;;
     verifyResponse <- executeStep this (lit "Verification") verifyPrompt
       (lit "User Request: " ++ request4 ++ [LF; LF]
        ++ lit "Contract Draft: " ++ draftResponse ++ [LF; LF]
        ++ lit "User Feedback: " ++ userInput3) ;;
     userInput4 <- getUserInput this
       (lit "Please review the verification feedback and provide any final adjustments:")
       (Some (lit "Verification feedback looks good")) ;;
     (* Step 5: Explain the contract to the client *)
     explainPrompt <- loadPromptFile this (lit "explain.txt") ;;
     request5 <- sessionUserPrompt ;;
     explainResponse <- executeStep this (lit "Explanation") explainPrompt
       (lit "User Request: " ++ request5 ++ [LF; LF]
        ++ lit "Final Contract: " ++ draftResponse ++ [LF; LF]
        ++ lit "Verification Notes: " ++ verifyResponse ++ [LF; LF]
        ++ lit "Final Adjustments: " ++ userInput4) ;;
     userInput5 <- getUserInput this
       (lit "Please provide any final notes for the contract explanation:")
       (Some (lit "Explanation looks good")) ;;
     (* Generate final contract with improvements *)
     finalContract <- generateFinalContract this draftResponse verifyResponse
                        userInput4 userInput5 ;;
     modify (fun s => setSession (setFinal (Some finalContract) (session s)) s) ;;
     ret finalContract)
    (fun error => throw error).

Definition saveContract (this : ContractProcessor) (outputPath : option jsstring) : M unit :=
  final <- gets (fun s => finalContract (session s)) ;;
  match final with
  | Some (c :: text) =>
      filename <-
        match outputPath with
        | Some (p :: path) => ret (p :: path)
        | _ =>
            t <- dateNow ;;
            ret (lit "german_freelance_contract_" ++ stringOfInt t ++ lit ".txt")
        end ;;
      writeFileSync filename (c :: text)
  | _ => throw (newError (lit "No contract to save. Run processContract() first."))
  end.

(** ** cli.ts *)

(** The options object of commander: a flag is given or not. *)
Record Options := {
  opt_apiKey : option jsstring;
  opt_prompt : option jsstring;
  opt_directory : option jsstring;
  opt_output : option jsstring
}.

Definition validateDescription (input : jsstring) : Validation :=
  if (length (trim input) <? 10)%nat then
    Invalid (lit "Please provide a more detailed description (at least 10 characters)")
  else Valid.

Definition acceptAll (input : jsstring) : Validation := Valid.

Definition passwordQuestion : jsstring := lit "Enter your OpenRouter API key:".

Definition descriptionQuestion : jsstring :=
  lit "Describe your German freelance project (client, services, duration, etc.):".

Definition getConfiguration (options : Options) : M ProcessConfig :=
  (* Get API key *)
  apiKey <-
    match opt_apiKey options with
    | Some (c :: key) => ret (c :: key)
    | _ =>
        envKey <- gets envKey ;;
        match envKey with
        | Some (c :: key) =>
            match trim (c :: key) with
            | _ :: _ => ret (c :: key)
            | [] => prompt passwordQuestion None acceptAll
            end
        | _ => prompt passwordQuestion None acceptAll
        end
    end ;;
  (* Get user prompt *)
  userPrompt <-
    match opt_prompt options with
    | Some (c :: text) => ret (c :: text)
    | _ => prompt descriptionQuestion None validateDescription
    end ;;
  ret {| apiKey := apiKey;
         directory := orElse (opt_directory options) (lit "./prompts");
         userPrompt := userPrompt;
         outputFile := opt_output options |}.

Definition getInteractiveConfiguration (options : Options) : M ProcessConfig :=
  (* Get API key *)
  apiKey <-
    match opt_apiKey options with
    | Some (c :: key) => ret (c :: key)
    | _ =>
        envKey <- gets envKey ;;
        match envKey with
        | Some (c :: key) =>
            match trim (c :: key) with
            | _ :: _ => ret (c :: key)
            | [] => prompt passwordQuestion None acceptAll
            end
        | _ => prompt passwordQuestion None acceptAll
        end
    end ;;
  (* Get directory *)
  let directory := orElse (opt_directory options) (lit "./prompts") in
  (* Get user prompt with examples *)
  answer <- prompt descriptionQuestion None validateDescription ;;
  (* Get output file *)
  outputAnswer <- prompt
    (lit "Output file name (optional, press Enter for auto-generated name):")
    (Some []) acceptAll ;;
  ret {| apiKey := apiKey;
         directory := directory;
         userPrompt := answer;
         outputFile := orUndefined (Some outputAnswer) |}.

Definition generateContract (config : ProcessConfig) : M unit :=
  processor <- newContractProcessor config ;;
  tryCatch
    (contract <- processContract processor ;;
     (* Save the contract *)
     saveContract processor (outputFile config))
    (fun error => throw error).

(** The action of a subcommand; the value returned is the exit status. *)
Definition action (configure : Options -> M ProcessConfig) (options : Options) : M Z :=
  tryCatch
    (config <- configure options ;;
     generateContract config ;;
     ret 0%Z)
    (fun error => ret 1%Z).

Definition generateCommand : Options -> M Z := action getConfiguration.
Definition interactiveCommand : Options -> M Z := action getInteractiveConfiguration.

End Processor.

(** ** Observations on a state and on a run *)

Definition history (s : State) : list Message := conversationHistory (session s).

(** The spinner line that ends a completed stage call. *)
Definition stageCompleted (e : Event) : bool :=
  match e with
  | SpinnerSucceed text => bool_decide (lit " completed" `suffix_of` text)
  | _ => false
  end.

Fixpoint completedStages (t : list Event) : nat :=
  match t with
  | [] => 0
  | e :: rest => (if stageCompleted e then 1 else 0) + completedStages rest
  end.

(** The questions answered on the terminal, each with the value accepted. *)
Definition answers (t : list Event) : list (jsstring * jsstring) :=
  omap (fun e => match e with Answered q v => Some (q, v) | _ => None end) t.

Definition asked (t : list Event) : list jsstring :=
  omap (fun e => match e with Asked q => Some q | _ => None end) t.

(** What [askLoop] does, as functions of the lines typed. *)
Fixpoint askResult (default : option jsstring) (validate : jsstring -> Validation)
    (lines : list jsstring) : Result jsstring :=
  match lines with
  | [] => Blocked
  | line :: rest =>
      match validate (filterInput default line) with
      | Valid => Ok (filterInput default line)
      | Invalid _ => askResult default validate rest
      end
  end.

Fixpoint askEvents (message : jsstring) (default : option jsstring)
    (validate : jsstring -> Validation) (lines : list jsstring) : list Event :=
  match lines with
  | [] => []
  | line :: rest =>
      match validate (filterInput default line) with
      | Valid => [Answered message (filterInput default line)]
      | Invalid why =>
          Rejected (filterInput default line) why :: askEvents message default validate rest
      end
  end.

Fixpoint askRest (default : option jsstring) (validate : jsstring -> Validation)
    (lines : list jsstring) : list jsstring :=
  match lines with
  | [] => []
  | line :: rest =>
      match validate (filterInput default line) with
      | Valid => rest
      | Invalid _ => askRest default validate rest
      end
  end.

(** The request a generation call sends for a system prompt, a user message
    and a history. *)
Definition stepRequest (this : OpenAIClient) (systemPrompt userMessage : jsstring)
    (h : list Message) : Request :=
  {| bearer := client_apiKey this;
     req_model := lit "gpt-4";
     req_messages := [ {| role := system; content := systemPrompt |} ] ++ h
                     ++ [ {| role := user; content := userMessage |} ];
     req_temperature := 7 # 10;
     req_max_tokens := 4000 # 1 |}.

(** The text [chatCompletion] returns for a response. *)
Definition completion (response : Response) : jsstring := orElse (firstContent response) [].

(** The error [chatCompletion] throws for a cause. *)
Definition wrapped (cause : Thrown) : Thrown :=
  newError (lit "OpenAI API error: " ++ errorText cause).

(** What a run from [s] to [s'] appended to the request log, to the
    terminal and to the conversation history. *)
Definition sentDuring (s s' : State) : list Request :=
  drop (length (requests s)) (requests s').

Definition eventsDuring (s s' : State) : list Event :=
  drop (length (terminal s)) (terminal s').

Definition addedDuring (s s' : State) : list Message :=
  drop (length (history s)) (history s').

(** A request made with the defaults of [chatCompletion]. *)
Definition defaultsOnly (r : Request) : Prop :=
  req_model r = lit "gpt-4" /\ req_temperature r = 7 # 10 /\ req_max_tokens r = 4000 # 1.

(** User and assistant entries in turn, a user entry first. *)
Definition alternating (l : list Message) : Prop :=
  forall i m, l !! i = Some m -> role m = if Nat.even i then user else assistant.

(** The error of [loadPromptFile] for a path. *)
Definition promptFileNotFound (filePath : jsstring) : Thrown :=
  newError (lit "Prompt file not found: " ++ filePath).

(** The template files, in the order of the stages. *)
Definition templates : list jsstring :=
  [lit "intake.txt"; lit "confirm_specs.txt"; lit "draft.txt"; lit "verify.txt";
   lit "explain.txt"].

(** *** Assertions on the states of a run

    [runInv this s0 n extra s]: since [s0], [n] stage calls have completed,
    the history grew by their [2 * n] entries, and [n + extra] requests went
    out; every request went out with the defaults, the key of the client, and
    the whole history of its time between the system prompt and the new user
    message. *)
Definition runInv (this : ContractProcessor) (s0 : State) (n extra : nat) (s : State) : Prop :=
  exists added events sent,
    history s = history s0 ++ added /\
    terminal s = terminal s0 ++ events /\
    requests s = requests s0 ++ sent /\
    completedStages events = n /\
    length added = 2 * n /\
    alternating added /\
    length sent = n + extra /\
    (forall i r, sent !! i = Some r ->
       defaultsOnly r /\ bearer r = client_apiKey (client this) /\
       length (req_messages r) = length (history s0) + 2 * i + 2).

(** A run that stopped: at most five stage calls completed, and at most one
    more request went out. *)
Definition stopped (this : ContractProcessor) (s0 : State) (s : State) : Prop :=
  exists n extra, n <= 5 /\ extra <= 1 /\ runInv this s0 n extra s.

(** [hoare P m Q E]: from a state in [P], [m] returns [a] in a state in
    [Q a], or throws or blocks in a state in [E]. *)
Definition hoare {A} (P : State -> Prop) (m : M A) (Q : A -> State -> Prop)
    (E : State -> Prop) : Prop :=
  forall s, P s ->
    match m s with
    | (Ok a, s') => Q a s'
    | (_, s') => E s'
    end.

(** *** The resolution of the API key

    When the flag carries a non-empty key, that key is used and the password
    question is not asked.  When it does not, and the environment variable
    holds a key that is not blank, that key is used and the question is not
    asked.  The question is asked only when neither is so, and the key is
    then the answer to it. *)
Definition ApiKeyResolution (configure : Options -> M ProcessConfig) : Prop :=
  forall options s,
    let '(r, s') := configure options s in
    let askedForKey := passwordQuestion ∈ asked (eventsDuring s s') in
    (forall c key, opt_apiKey options = Some (c :: key) ->
       ~ askedForKey /\ forall cfg, r = Ok cfg -> apiKey cfg = c :: key) /\
    (truthy (opt_apiKey options) = false ->
     forall c key, envKey s = Some (c :: key) -> trim (c :: key) <> [] ->
       ~ askedForKey /\ forall cfg, r = Ok cfg -> apiKey cfg = c :: key) /\
    (askedForKey ->
       truthy (opt_apiKey options) = false /\
       (envKey s = None \/ exists e, envKey s = Some e /\ trim e = []) /\
       forall cfg, r = Ok cfg ->
         (passwordQuestion, apiKey cfg) ∈ answers (eventsDuring s s')).

(** Every request of a command run with a non-empty key on the flag is
    authenticated with that key. *)
Definition FlagKeyOnRequests (command : Options -> M Z) : Prop :=
  forall options s c key,
    opt_apiKey options = Some (c :: key) ->
    let '(r, s') := command options s in
    forall request, request ∈ sentDuring s s' -> bearer request = c :: key.

(** The description a configuration function accepts from the terminal. *)
Definition DescriptionChecked (configure : Options -> M ProcessConfig)
    (always : bool) : Prop :=
  forall options s,
    (if always then True else truthy (opt_prompt options) = false) ->
    let '(r, s') := configure options s in
    forall cfg, r = Ok cfg ->
      10 <= length (trim (userPrompt cfg)) /\
      (descriptionQuestion, userPrompt cfg) ∈ answers (eventsDuring s s').

(** *** The stages of a run

    The questions asked after the five stages, in order. *)
Definition feedbackQuestions : list jsstring :=
  [lit "Please provide any additional details or clarifications for the intake:";
   lit "Please confirm these specifications or provide any corrections:";
   lit "Please review the draft and provide any feedback or specific requirements:";
   lit "Please review the verification feedback and provide any final adjustments:";
   lit "Please provide any final notes for the contract explanation:"].

Definition outputQuestion : jsstring :=
  lit "Output file name (optional, press Enter for auto-generated name):".

(** [text] is what the template file of stage [k] holds. *)
Definition templateText (join : jsstring -> jsstring -> jsstring) (this : ContractProcessor)
    (s : State) (k : nat) (text : jsstring) : Prop :=
  exists file, templates !! k = Some file /\
               fs s !! join (directory (config this)) file = Some text.

(** In the run from [s] to [s'], the provider answered the request of index
    [k] with [response]. *)
Definition respondedAt (s s' : State) (k : nat) (response : Response) : Prop :=
  exists request,
    sentDuring s s' !! k = Some request /\
    provider s (requests s ++ take k (sentDuring s s')) request = Responded response.

(** In the run from [s] to [s'], [value] is the answer to the question asked
    after stage [k]. *)
Definition answeredAt (s s' : State) (k : nat) (value : jsstring) : Prop :=
  exists question,
    feedbackQuestions !! k = Some question /\
    answers (eventsDuring s s') !! k = Some (question, value).

(** The history after [k] completed stage calls of the run. *)
Definition historyAt (s s' : State) (k : nat) : list Message :=
  history s ++ take (2 * k) (addedDuring s s').

(** What a command leaves behind, by exit status: it returns 0 or 1 or stays
    blocked; with 0 the final contract is in the file system; otherwise the
    file system is as it was. *)
Definition ExitStatus (command : Options -> M Z) : Prop :=
  forall options s,
    let '(r, s') := command options s in
    (r = Ok 0%Z \/ r = Ok 1%Z \/ r = Blocked) /\
    (r = Ok 0%Z ->
       exists filename text,
         text <> [] /\ finalContract (session s') = Some text /\
         fs s' = <[filename := text]> (fs s)) /\
    (r <> Ok 0%Z -> fs s' = fs s).

(** ** A concrete world: the end-to-end scenario

    Templates under [prompts], a provider that answers its calls from a
    script, a user who accepts every default. *)

Definition sampleJoin (dir file : jsstring) : jsstring := dir ++ lit "/" ++ file.

Definition sampleFs : gmap (list N) (list N) :=
  list_to_map
    [ (lit "prompts/intake.txt", lit "  Gather the contract details.  ");
      (lit "prompts/confirm_specs.txt", lit "Summarise the specifications.");
      (lit "prompts/draft.txt", lit "Draft the contract.");
      (lit "prompts/verify.txt", lit "Review the contract.");
      (lit "prompts/explain.txt", lit "Explain the contract.") ].

Definition textResponse (text : jsstring) : Response :=
  {| choices := [ {| choice_message := Some {| msg_content := Some text |} |} ] |}.

(** The [n]th call gets the [n]th entry of the script: a text, or a failure
    of the provider; past the end of the script the provider fails. *)
Definition scripted (script : list (option jsstring)) (log : list Request) (r : Request)
    : Outcome :=
  match script !! length log with
  | Some (Some text) => Responded (textResponse text)
  | Some None =>
      Failed (ErrorObject (SubclassError (lit "RateLimitError")) (lit "429 Too Many Requests"))
  | None => Failed (NonError (lit "script exhausted"))
  end.

Definition sixAnswers : list (option jsstring) :=
  [Some (lit "INTAKE_OK"); Some (lit "CONFIRM_OK"); Some (lit "DRAFT_TEXT");
   Some (lit "VERIFY_OK"); Some (lit "EXPLAIN_OK"); Some (lit "FINAL_TEXT")].

Definition blankSession : ContractSession :=
  {| sessionPrompt := []; conversationHistory := []; contractDraft := None;
     finalContract := None |}.

Definition sampleState : State :=
  {| fs := sampleFs;
     envKey := Some (lit "sk-env");
     now := 1700000000000;
     provider := scripted sixAnswers;
     stdin := [[]; []; []; []; []];
     requests := [];
     terminal := [];
     session := blankSession |}.

Definition sampleConfig : ProcessConfig :=
  {| apiKey := lit "sk-flag";
     directory := lit "prompts";
     userPrompt := lit "Berlin startup needs a 3-month freelance dev contract";
     outputFile := Some (lit "out.txt") |}.

Definition sampleProcessor : ContractProcessor :=
  {| client := {| client_apiKey := lit "sk-flag" |}; config := sampleConfig |}.

(** The session a new [ContractProcessor] starts with. *)
Definition sampleStarted : State :=
  setSession {| sessionPrompt := userPrompt sampleConfig; conversationHistory := [];
                contractDraft := None; finalContract := None |} sampleState.

(** The same world without the template of the Draft stage. *)
Definition missingDraftState : State :=
  setFs (delete (lit "prompts/draft.txt") sampleFs) sampleStarted.

(** The same world with a provider whose sixth response has an empty
    content. *)
Definition emptyFinalState : State :=
  {| fs := sampleFs;
     envKey := Some (lit "sk-env");
     now := 1700000000000;
     provider := scripted [Some (lit "INTAKE_OK"); Some (lit "CONFIRM_OK");
                           Some (lit "DRAFT_TEXT"); Some (lit "VERIFY_OK");
                           Some (lit "EXPLAIN_OK"); Some []];
     stdin := [[]; []; []; []; []];
     requests := [];
     terminal := [];
     session := blankSession |}.

(** A provider that fails on its fourth call. *)
Definition failingVerifyState : State :=
  {| fs := sampleFs;
     envKey := Some (lit "sk-env");
     now := 1700000000000;
     provider := scripted [Some (lit "INTAKE_OK"); Some (lit "CONFIRM_OK");
                           Some (lit "DRAFT_TEXT"); None];
     stdin := [[]; []; []; []; []];
     requests := [];
     terminal := [];
     session := blankSession |}.

(** A provider that fails on its first call. *)
Definition rateLimitedState : State :=
  {| fs := sampleFs;
     envKey := Some (lit "sk-env");
     now := 1700000000000;
     provider := scripted [None];
     stdin := [];
     requests := [];
     terminal := [];
     session := blankSession |}.

(** The message of the [TypeError] of reading [choices[0]] where [choices]
    is [undefined], as JavaScriptCore, the engine of bun, words it; V8 words
    it differently. *)
Definition noChoicesMessage : jsstring :=
  lit "undefined is not an object (evaluating 'response.choices[0]')".

(** An endpoint that answers every call with status 200 and a body without
    [choices]. *)
Definition errorBodyState : State :=
  {| fs := sampleFs;
     envKey := Some (lit "sk-env");
     now := 1700000000000;
     provider := fun _ _ => Resolved (Unshaped noChoicesMessage);
     stdin := [];
     requests := [];
     terminal := [];
     session := blankSession |}.

(** The request of [chatCompletion] for one user message, with the defaults. *)
Definition helloRequest : Request :=
  {| bearer := lit "sk-flag";
     req_model := lit "gpt-4";
     req_messages := [ {| role := user; content := lit "hello" |} ];
     req_temperature := 7 # 10;
     req_max_tokens := 4000 # 1 |}.

(** Command lines. *)
Definition flagOptions : Options :=
  {| opt_apiKey := Some (lit "sk-flag");
     opt_prompt := Some (lit "Berlin startup needs a 3-month freelance dev contract");
     opt_directory := Some (lit "prompts");
     opt_output := Some (lit "out.txt") |}.

(** [--api-key ""]. *)
Definition emptyFlagOptions : Options :=
  {| opt_apiKey := Some [];
     opt_prompt := Some (lit "Berlin startup needs a 3-month freelance dev contract");
     opt_directory := Some (lit "prompts");
     opt_output := Some (lit "out.txt") |}.

(** No [--prompt]; the user types a description that is too short, then one
    that is long enough. *)
Definition noPromptOptions : Options :=
  {| opt_apiKey := Some (lit "sk-flag");
     opt_prompt := None;
     opt_directory := Some (lit "prompts");
     opt_output := None |}.

Definition typingState : State :=
  {| fs := sampleFs;
     envKey := None;
     now := 1700000000000;
     provider := scripted sixAnswers;
     stdin := [lit "  web  "; lit "Web shop for a Berlin startup"];
     requests := [];
     terminal := [];
     session := blankSession |}.

(** The user of the interactive command types a description and presses
    Enter at the output question. *)
Definition interactiveState : State :=
  {| fs := sampleFs;
     envKey := Some (lit "sk-env");
     now := 1700000000000;
     provider := scripted sixAnswers;
     stdin := [lit "Web shop for a Berlin startup"; []];
     requests := [];
     terminal := [];
     session := blankSession |}.

(** * Properties *)

(** ** The monad *)

Lemma bind_eq {A B} (m : M A) (k : A -> M B) s :
  bind m k s =
  match m s with
  | (Ok a, s') => k a s'
  | (Throw e, s') => (Throw e, s')
  | (Blocked, s') => (Blocked, s')
  end.
Proof. reflexivity. Qed.

Lemma tryCatch_rethrow {A} (m : M A) s :
  tryCatch m (fun error => throw error) s = m s.
Proof.
  unfold tryCatch, throw. destruct (m s) as [[a | e |] s']; reflexivity.
Qed.

(** ** The terminal *)

Lemma askLoop_eq message default validate lines s :
  askLoop message default validate lines s =
  (askResult default validate lines,
   setTerminal (terminal s ++ askEvents message default validate lines)
     (setStdin (askRest default validate lines) s)).
Proof.
  revert s. induction lines as [| line rest IH]; intros s; simpl.
  - rewrite app_nil_r. reflexivity.
  - destruct (validate (filterInput default line)) as [| why].
    + reflexivity.
    + rewrite IH. cbn. rewrite <- app_assoc. reflexivity.
Qed.

Lemma prompt_eq message default validate s :
  prompt message default validate s =
  (askResult default validate (stdin s),
   setTerminal ((terminal s ++ [Asked message])
                ++ askEvents message default validate (stdin s))
     (setStdin (askRest default validate (stdin s)) s)).
Proof.
  unfold prompt. rewrite bind_eq. cbn. rewrite askLoop_eq. reflexivity.
Qed.

Lemma askResult_not_Throw default validate lines e :
  askResult default validate lines <> Throw e.
Proof.
  induction lines as [| line rest IH]; simpl; [discriminate |].
  destruct (validate _); [discriminate | exact IH].
Qed.

Lemma askResult_valid default validate lines a :
  askResult default validate lines = Ok a -> validate a = Valid.
Proof.
  induction lines as [| line rest IH]; simpl; [discriminate |].
  destruct (validate (filterInput default line)) eqn:E; [| exact IH].
  intros [= <-]. exact E.
Qed.

Lemma completedStages_app t1 t2 :
  completedStages (t1 ++ t2) = completedStages t1 + completedStages t2.
Proof. induction t1 as [| e t1 IH]; simpl; [reflexivity | rewrite IH; lia]. Qed.

Lemma completedStages_askEvents message default validate lines :
  completedStages (askEvents message default validate lines) = 0.
Proof.
  induction lines as [| line rest IH]; simpl; [reflexivity |].
  destruct (validate _); simpl; [reflexivity | exact IH].
Qed.

Lemma answers_askEvents message default validate lines :
  answers (askEvents message default validate lines) =
  match askResult default validate lines with
  | Ok a => [(message, a)]
  | _ => []
  end.
Proof.
  induction lines as [| line rest IH]; simpl; [reflexivity |].
  destruct (validate _); simpl; [reflexivity | exact IH].
Qed.

Lemma asked_askEvents message default validate lines :
  asked (askEvents message default validate lines) = [].
Proof.
  induction lines as [| line rest IH]; simpl; [reflexivity |].
  destruct (validate _); simpl; [reflexivity | exact IH].
Qed.

(** ** openai-client.ts *)

Lemma chatCompletion_eq this messages s :
  chatCompletion this messages emptyConfig s =
  let r := {| bearer := client_apiKey this; req_model := lit "gpt-4";
              req_messages := messages; req_temperature := 7 # 10;
              req_max_tokens := 4000 # 1 |} in
  match provider s (requests s) r with
  | Responded resp => (Ok (completion resp), setRequests (requests s ++ [r]) s)
  | Resolved (Unshaped message) =>
      (Throw (wrapped (typeError message)), setRequests (requests s ++ [r]) s)
  | Failed e => (Throw (wrapped e), setRequests (requests s ++ [r]) s)
  end.
Proof.
  unfold chatCompletion, tryCatch. rewrite bind_eq. unfold create. cbn.
  destruct (provider s (requests s) _) as [[resp | message] | e]; reflexivity.
Qed.

Lemma generateContractStep_eq this systemPrompt userMessage h s :
  generateContractStep this systemPrompt userMessage h s =
  let r := stepRequest this systemPrompt userMessage h in
  match provider s (requests s) r with
  | Responded resp => (Ok (completion resp), setRequests (requests s ++ [r]) s)
  | Resolved (Unshaped message) =>
      (Throw (wrapped (typeError message)), setRequests (requests s ++ [r]) s)
  | Failed e => (Throw (wrapped e), setRequests (requests s ++ [r]) s)
  end.
Proof. unfold generateContractStep. rewrite chatCompletion_eq. reflexivity. Qed.

(** ** contract-processor.ts *)

Section ProcessorFacts.

Variable join : jsstring -> jsstring -> jsstring.

Lemma loadPromptFile_eq this filename s :
  loadPromptFile join this filename s =
  (match fs s !! join (directory (config this)) filename with
   | Some text => Ok (trim text)
   | None => Throw (newError (lit "Prompt file not found: "
                              ++ join (directory (config this)) filename))
   end, s).
Proof.
  unfold loadPromptFile. rewrite bind_eq. unfold existsSync, gets, readFileSync.
  destruct (fs s !! join (directory (config this)) filename) as [text |] eqn:E.
  - rewrite bool_decide_eq_true_2 by eauto. cbn. rewrite bind_eq, E. reflexivity.
  - rewrite bool_decide_eq_false_2 by (intros [? ?]; discriminate). reflexivity.
Qed.

Lemma executeStep_eq this stepName systemPrompt userMessage s :
  executeStep this stepName systemPrompt userMessage s =
  let r := stepRequest (client this) systemPrompt userMessage (history s) in
  match provider s (requests s) r with
  | Responded resp =>
      (Ok (completion resp),
       setTerminal ((terminal s ++ [SpinnerStart (lit "Executing " ++ stepName ++ lit "...")])
                    ++ [SpinnerSucceed (stepName ++ lit " completed")])
         (setSession (setHistory (history s
                                  ++ [ {| role := user; content := userMessage |};
                                       {| role := assistant; content := completion resp |} ])
                        (session s))
            (setRequests (requests s ++ [r]) s)))
  | Resolved (Unshaped message) =>
      (Throw (wrapped (typeError message)),
       setTerminal ((terminal s ++ [SpinnerStart (lit "Executing " ++ stepName ++ lit "...")])
                    ++ [SpinnerFail (stepName ++ lit " failed")])
         (setRequests (requests s ++ [r]) s))
  | Failed e =>
      (Throw (wrapped e),
       setTerminal ((terminal s ++ [SpinnerStart (lit "Executing " ++ stepName ++ lit "...")])
                    ++ [SpinnerFail (stepName ++ lit " failed")])
         (setRequests (requests s ++ [r]) s))
  end.
Proof.
  unfold executeStep. rewrite bind_eq. cbn -[lit]. unfold tryCatch.
  rewrite bind_eq. cbn -[lit]. rewrite bind_eq, generateContractStep_eq.
  cbn -[lit]. unfold history.
  destruct (provider s (requests s) _) as [[resp | message] | e]; reflexivity.
Qed.

Lemma getUserInput_eq this question defaultValue s :
  getUserInput this question defaultValue s =
  (askResult defaultValue validateNonEmpty (stdin s),
   setTerminal ((terminal s ++ [Asked question])
                ++ askEvents question defaultValue validateNonEmpty (stdin s))
     (setStdin (askRest defaultValue validateNonEmpty (stdin s)) s)).
Proof. apply prompt_eq. Qed.

Lemma generateFinalContract_eq this draft verification userAdjustments userExplanation s :
  generateFinalContract this draft verification userAdjustments userExplanation s =
  let r := stepRequest (client this)
             (finalPromptText draft verification userAdjustments userExplanation)
             (lit "Generate the final German freelance contract") (history s) in
  match provider s (requests s) r with
  | Responded resp =>
      (Ok (completion resp),
       setTerminal ((terminal s ++ [SpinnerStart (lit "Generating final contract...")])
                    ++ [SpinnerSucceed (lit "Final contract generated")])
         (setRequests (requests s ++ [r]) s))
  | Resolved (Unshaped message) =>
      (Throw (wrapped (typeError message)),
       setTerminal ((terminal s ++ [SpinnerStart (lit "Generating final contract...")])
                    ++ [SpinnerFail (lit "Failed to generate final contract")])
         (setRequests (requests s ++ [r]) s))
  | Failed e =>
      (Throw (wrapped e),
       setTerminal ((terminal s ++ [SpinnerStart (lit "Generating final contract...")])
                    ++ [SpinnerFail (lit "Failed to generate final contract")])
         (setRequests (requests s ++ [r]) s))
  end.
Proof.
  unfold generateFinalContract. rewrite bind_eq. cbn -[lit finalPromptText]. unfold tryCatch.
  rewrite bind_eq. cbn -[lit finalPromptText]. rewrite bind_eq, generateContractStep_eq.
  cbn -[lit finalPromptText]. unfold history.
  destruct (provider s (requests s) _) as [[resp | message] | e]; reflexivity.
Qed.

Lemma bind_sessionUserPrompt {B} (k : jsstring -> M B) s :
  bind sessionUserPrompt k s = k (sessionPrompt (session s)) s.
Proof. reflexivity. Qed.

Lemma bind_modify {B} f (k : unit -> M B) s :
  bind (modify f) k s = k tt (f s).
Proof. reflexivity. Qed.

Lemma bind_ret {A B} (a : A) (k : A -> M B) s :
  bind (ret a) k s = k a s.
Proof. reflexivity. Qed.

End ProcessorFacts.

(** ** Symbolic runs

    [run_step] runs the first call of a sequence on the state it is applied
    to, and splits on what the file system, the provider or the user may do. *)

Ltac state_norm :=
  cbn [fs envKey now provider stdin requests terminal session history
       setFs setStdin setRequests setTerminal setSession
       setHistory setDraft setFinal
       sessionPrompt conversationHistory contractDraft finalContract].

Ltac hide_literals :=
  repeat match goal with
         | |- context [lit ?str] => let q := fresh "txt" in set (q := lit str)
         end.

Ltac run_step :=
  lazymatch goal with
  | |- context [bind sessionUserPrompt _ _] => rewrite bind_sessionUserPrompt
  | |- context [bind (modify _) _ _] => rewrite bind_modify
  | |- context [bind (ret _) _ _] => rewrite bind_ret
  | |- context [bind (loadPromptFile _ _ _) _ _] =>
      rewrite bind_eq, loadPromptFile_eq; state_norm;
      lazymatch goal with
      | |- context [match fs ?s !! ?p with _ => _ end] =>
          let Hfs := fresh "Hfs" in
          destruct (fs s !! p) as [? |] eqn:Hfs
      end
  | |- context [bind (executeStep _ _ _ _) _ _] =>
      rewrite bind_eq, executeStep_eq; cbv zeta; state_norm;
      lazymatch goal with
      | |- context [match provider ?s ?l ?r with _ => _ end] =>
          let Hp := fresh "Hp" in
          destruct (provider s l r) as [[? | ?] | ?] eqn:Hp
      end
  | |- context [bind (getUserInput _ _ _) _ _] =>
      rewrite bind_eq, getUserInput_eq; state_norm;
      lazymatch goal with
      | |- context [askResult ?d ?v ?l] =>
          let Ha := fresh "Ha" in
          destruct (askResult d v l) as [? | ? |] eqn:Ha;
          [ | exfalso; exact (askResult_not_Throw _ _ _ _ Ha) | ]
      end
  | |- context [bind (generateFinalContract _ _ _ _ _) _ _] =>
      rewrite bind_eq, generateFinalContract_eq; cbv zeta; state_norm;
      lazymatch goal with
      | |- context [match provider ?s ?l ?r with _ => _ end] =>
          let Hp := fresh "Hp" in
          destruct (provider s l r) as [[? | ?] | ?] eqn:Hp
      end
  end;
  cbv beta iota; state_norm.

(** ** The invariant of a run *)

Lemma hoare_bind {A B} P (m : M A) Q (k : A -> M B) R E :
  hoare P m Q E -> (forall a, hoare (Q a) (k a) R E) -> hoare P (bind m k) R E.
Proof.
  intros Hm Hk s HP. rewrite bind_eq. specialize (Hm s HP).
  destruct (m s) as [[a | e |] s1]; [| exact Hm | exact Hm].
  exact (Hk a s1 Hm).
Qed.

Lemma hoare_ret {A} (Q : A -> State -> Prop) E (a : A) : hoare (Q a) (ret a) Q E.
Proof. intros s HP. exact HP. Qed.

Lemma hoare_rethrow {A} P (m : M A) Q E :
  hoare P m Q E -> hoare P (tryCatch m (fun error => throw error)) Q E.
Proof. intros Hm s HP. rewrite tryCatch_rethrow. exact (Hm s HP). Qed.

Lemma hoare_consequence {A} P (m : M A) (Q Q' : A -> State -> Prop) (E E' : State -> Prop) :
  hoare P m Q E ->
  (forall a s, Q a s -> Q' a s) -> (forall s, E s -> E' s) ->
  hoare P m Q' E'.
Proof.
  intros Hm HQ HE s HP. specialize (Hm s HP).
  destruct (m s) as [[a | e |] s1]; auto.
Qed.

Lemma stageCompleted_succeed stepName :
  stageCompleted (SpinnerSucceed (stepName ++ lit " completed")) = true.
Proof.
  unfold stageCompleted. apply bool_decide_eq_true_2. apply suffix_app_r. reflexivity.
Qed.

Lemma alternating_nil : alternating [].
Proof. intros i m H. destruct i; discriminate. Qed.

Lemma even_double n : Nat.even (2 * n) = true.
Proof. rewrite Nat.even_mul. reflexivity. Qed.

Lemma even_double_S n : Nat.even (S (2 * n)) = false.
Proof. rewrite Nat.even_succ, <- Nat.negb_even, even_double. reflexivity. Qed.

Lemma alternating_push l n userMessage response :
  alternating l -> length l = 2 * n ->
  alternating (l ++ [ {| role := user; content := userMessage |};
                      {| role := assistant; content := response |} ]).
Proof.
  intros Hl Hn i m Hi.
  destruct (decide (i < length l)) as [Hlt | Hge].
  - rewrite lookup_app_l in Hi by exact Hlt. exact (Hl i m Hi).
  - rewrite lookup_app_r in Hi by lia.
    destruct (i - length l) as [| [| k]] eqn:Ek; simpl in Hi; try discriminate.
    + injection Hi as <-. replace i with (2 * n) by lia. rewrite even_double. reflexivity.
    + injection Hi as <-. replace i with (S (2 * n)) by lia.
      rewrite even_double_S. reflexivity.
Qed.

Section Invariant.

Variable this : ContractProcessor.
Variable s0 : State.

Lemma runInv_start : runInv this s0 0 0 s0.
Proof.
  exists [], [], []. rewrite !app_nil_r. simpl.
  split_and!; auto using alternating_nil. intros i r H. destruct i; discriminate.
Qed.

(** The terminal moves on, with no stage call completed. *)
Lemma runInv_frame n slack s s' events :
  history s' = history s -> requests s' = requests s ->
  terminal s' = terminal s ++ events -> completedStages events = 0 ->
  runInv this s0 n slack s -> runInv this s0 n slack s'.
Proof.
  intros Hh Hr Ht Hc (added & evs & sent & H1 & H2 & H3 & H4 & H5 & H6 & H7 & H8).
  exists added, (evs ++ events), sent.
  rewrite Hh, Hr, Ht, H2, <- app_assoc, completedStages_app, Hc.
  split_and!; try assumption; try reflexivity; try lia.
Qed.

Lemma runInv_stopped n s : n <= 5 -> runInv this s0 n 0 s -> stopped this s0 s.
Proof. intros Hn H. exists n, 0. split_and!; [exact Hn | lia | exact H]. Qed.

(** A request goes out. *)
Lemma runInv_sent n s s' systemPrompt userMessage events :
  history s' = history s ->
  requests s' = requests s
                ++ [stepRequest (client this) systemPrompt userMessage (history s)] ->
  terminal s' = terminal s ++ events -> completedStages events = 0 ->
  runInv this s0 n 0 s -> runInv this s0 n 1 s'.
Proof.
  intros Hh Hr Ht Hc (added & evs & sent & H1 & H2 & H3 & H4 & H5 & H6 & H7 & H8).
  exists added, (evs ++ events),
    (sent ++ [stepRequest (client this) systemPrompt userMessage (history s)]).
  rewrite Hh, Hr, Ht, H2, H3, <- !app_assoc, completedStages_app, Hc, length_app.
  simpl. split_and!; try assumption; try reflexivity; try lia.
  intros i r H.
  destruct (decide (i < length sent)) as [Hlt | Hge].
  - rewrite lookup_app_l in H by exact Hlt. apply (H8 i r), H.
  - rewrite lookup_app_r in H by lia.
    destruct (i - length sent) as [| k] eqn:Ek; simpl in H; [| discriminate].
    injection H as <-.
    split; [unfold defaultsOnly; auto |]. split; [reflexivity |].
    simpl. rewrite ?length_app, ?H1, ?length_app. simpl. lia.
Qed.

(** A stage call completes. *)
Lemma runInv_completed n s s' systemPrompt userMessage response events :
  history s' = history s ++ [ {| role := user; content := userMessage |};
                              {| role := assistant; content := response |} ] ->
  requests s' = requests s
                ++ [stepRequest (client this) systemPrompt userMessage (history s)] ->
  terminal s' = terminal s ++ events -> completedStages events = 1 ->
  runInv this s0 n 0 s -> runInv this s0 (S n) 0 s'.
Proof.
  intros Hh Hr Ht Hc (added & evs & sent & H1 & H2 & H3 & H4 & H5 & H6 & H7 & H8).
  exists (added ++ [ {| role := user; content := userMessage |};
                     {| role := assistant; content := response |} ]),
    (evs ++ events),
    (sent ++ [stepRequest (client this) systemPrompt userMessage (history s)]).
  rewrite Hh, Hr, Ht, H1, H2, H3, <- !app_assoc, completedStages_app, Hc, !length_app.
  simpl. split_and!; try assumption; try reflexivity; try lia.
  { apply (alternating_push added n); assumption. }
  intros i r H.
  destruct (decide (i < length sent)) as [Hlt | Hge].
  - rewrite lookup_app_l in H by exact Hlt. apply (H8 i r), H.
  - rewrite lookup_app_r in H by lia.
    destruct (i - length sent) as [| k] eqn:Ek; simpl in H; [| discriminate].
    injection H as <-.
    split; [unfold defaultsOnly; auto |]. split; [reflexivity |].
    simpl. rewrite ?length_app, ?H1, ?length_app. simpl. lia.
Qed.

End Invariant.

Section Triples.

Variable join : jsstring -> jsstring -> jsstring.
Variable this : ContractProcessor.
Variable s0 : State.

Lemma hoare_loadPromptFile n filename :
  n <= 5 ->
  hoare (runInv this s0 n 0) (loadPromptFile join this filename)
    (fun _ => runInv this s0 n 0) (stopped this s0).
Proof.
  intros Hn s H. rewrite loadPromptFile_eq.
  destruct (fs s !! _); [exact H | exact (runInv_stopped this s0 n s Hn H)].
Qed.

Lemma hoare_sessionUserPrompt P E : hoare P sessionUserPrompt (fun _ => P) E.
Proof. intros s H. exact H. Qed.

Lemma hoare_executeStep n stepName systemPrompt userMessage :
  n <= 5 ->
  hoare (runInv this s0 n 0) (executeStep this stepName systemPrompt userMessage)
    (fun _ => runInv this s0 (S n) 0) (stopped this s0).
Proof.
  intros Hn s H. rewrite executeStep_eq. cbv zeta.
  destruct (provider s (requests s) _) as [[resp | message] | cause].
  2, 3: exists n, 1; split_and!; [exact Hn | lia |];
    eapply runInv_sent; [.. | exact H]; state_norm;
    [ reflexivity | reflexivity | rewrite <- app_assoc; reflexivity | reflexivity ].
  eapply runInv_completed; [.. | exact H]; state_norm.
  - reflexivity.
  - reflexivity.
  - rewrite <- app_assoc. reflexivity.
  - cbn [completedStages app]. rewrite stageCompleted_succeed. reflexivity.
Qed.

Lemma hoare_getUserInput n question defaultValue :
  n <= 5 ->
  hoare (runInv this s0 n 0) (getUserInput this question defaultValue)
    (fun _ => runInv this s0 n 0) (stopped this s0).
Proof.
  intros Hn s H. rewrite getUserInput_eq.
  assert (runInv this s0 n 0
            (setTerminal ((terminal s ++ [Asked question])
                          ++ askEvents question defaultValue validateNonEmpty (stdin s))
               (setStdin (askRest defaultValue validateNonEmpty (stdin s)) s))) as H'.
  { eapply runInv_frame; [.. | exact H]; state_norm.
    - reflexivity.
    - reflexivity.
    - rewrite <- app_assoc. reflexivity.
    - rewrite completedStages_app, completedStages_askEvents. reflexivity. }
  destruct (askResult _ _ _); [exact H' | |]; exact (runInv_stopped this s0 n _ Hn H').
Qed.

Lemma hoare_setSession n slack E (f : ContractSession -> ContractSession) :
  (forall x, conversationHistory (f x) = conversationHistory x) ->
  hoare (runInv this s0 n slack) (modify (fun s => setSession (f (session s)) s))
    (fun _ => runInv this s0 n slack) E.
Proof.
  intros Hf s H. cbn.
  eapply (runInv_frame this s0 n slack s _ []); [.. | exact H]; state_norm.
  - apply Hf.
  - reflexivity.
  - rewrite app_nil_r. reflexivity.
  - reflexivity.
Qed.

Lemma hoare_generateFinalContract n draft verification userAdjustments userExplanation :
  n <= 5 ->
  hoare (runInv this s0 n 0)
    (generateFinalContract this draft verification userAdjustments userExplanation)
    (fun _ => runInv this s0 n 1) (stopped this s0).
Proof.
  intros Hn s H. rewrite generateFinalContract_eq. cbv zeta.
  destruct (provider s (requests s) _) as [[resp | message] | cause];
    [| exists n, 1; split_and!; [exact Hn | lia |] ..].
  all: eapply runInv_sent; [.. | exact H]; state_norm;
    [ reflexivity | reflexivity | rewrite <- app_assoc; reflexivity | reflexivity ].
Qed.

(** The whole pipeline, from any state. *)
Lemma hoare_processContract :
  hoare (runInv this s0 0 0) (processContract join this)
    (fun _ => runInv this s0 5 1) (stopped this s0).
Proof.
  unfold processContract. apply hoare_rethrow.
  repeat lazymatch goal with
    | |- hoare _ (bind (loadPromptFile _ _ _) _) _ _ =>
        eapply hoare_bind; [apply hoare_loadPromptFile; lia | intros ?]
    | |- hoare _ (bind sessionUserPrompt _) _ _ =>
        eapply hoare_bind; [apply hoare_sessionUserPrompt | intros ?]
    | |- hoare _ (bind (executeStep _ _ _ _) _) _ _ =>
        eapply hoare_bind; [apply hoare_executeStep; lia | intros ?]
    | |- hoare _ (bind (getUserInput _ _ _) _) _ _ =>
        eapply hoare_bind; [apply hoare_getUserInput; lia | intros ?]
    | |- hoare _ (bind (modify _) _) _ _ =>
        eapply hoare_bind; [apply hoare_setSession; reflexivity | intros ?]
    | |- hoare _ (bind (generateFinalContract _ _ _ _ _) _) _ _ =>
        eapply hoare_bind; [apply hoare_generateFinalContract; lia | intros ?]
    end.
  apply (hoare_ret (fun _ => runInv this s0 5 1)).
Qed.

End Triples.

(** What the invariant says of the run as a whole. *)
Lemma processContract_run join this s :
  let '(r, s') := processContract join this s in
  exists n extra, n <= 5 /\ extra <= 1 /\
    (forall a, r = Ok a -> n = 5 /\ extra = 1) /\ runInv this s n extra s'.
Proof.
  pose proof (hoare_processContract join this s s (runInv_start this s)) as H.
  destruct (processContract join this s) as [[a | e |] s'].
  - exists 5, 1. split_and!; [lia | lia | split; reflexivity | exact H].
  - destruct H as (n & extra & Hn & He & H).
    exists n, extra. split_and!; [exact Hn | exact He | discriminate | exact H].
  - destruct H as (n & extra & Hn & He & H).
    exists n, extra. split_and!; [exact Hn | exact He | discriminate | exact H].
Qed.

Lemma runInv_during this s n extra s' :
  runInv this s n extra s' ->
  history s' = history s ++ addedDuring s s' /\
  terminal s' = terminal s ++ eventsDuring s s' /\
  requests s' = requests s ++ sentDuring s s' /\
  completedStages (eventsDuring s s') = n /\
  length (addedDuring s s') = 2 * n /\
  alternating (addedDuring s s') /\
  length (sentDuring s s') = n + extra /\
  (forall i r, sentDuring s s' !! i = Some r ->
     defaultsOnly r /\ bearer r = client_apiKey (client this) /\
     length (req_messages r) = length (history s) + 2 * i + 2).
Proof.
  intros (added & evs & sent & H1 & H2 & H3 & H).
  unfold addedDuring, eventsDuring, sentDuring.
  rewrite H1, H2, H3, !drop_app_length. split_and!; try reflexivity; apply H.
Qed.

Lemma saveContract_eq this outputPath s :
  saveContract this outputPath s =
  match finalContract (session s) with
  | Some (c :: text) =>
      (Ok tt,
       setFs (<[ match outputPath with
                 | Some (p :: path) => p :: path
                 | _ => lit "german_freelance_contract_" ++ stringOfInt (now s) ++ lit ".txt"
                 end := c :: text ]> (fs s)) s)
  | _ => (Throw (newError (lit "No contract to save. Run processContract() first.")), s)
  end.
Proof.
  unfold saveContract. rewrite bind_eq. cbn -[lit].
  destruct (finalContract (session s)) as [[| c text] |]; try reflexivity.
  destruct outputPath as [[| p path] |]; reflexivity.
Qed.

Lemma generateContract_eq join config s :
  generateContract join config s =
  let this := {| client := {| client_apiKey := apiKey config |}; config := config |} in
  match processContract join this
          (setSession {| sessionPrompt := userPrompt config; conversationHistory := [];
                         contractDraft := None; finalContract := None |} s) with
  | (Ok contract, s2) => saveContract this (outputFile config) s2
  | (Throw e, s2) => (Throw e, s2)
  | (Blocked, s2) => (Blocked, s2)
  end.
Proof.
  unfold generateContract. rewrite bind_eq. cbn -[processContract saveContract].
  rewrite tryCatch_rethrow, bind_eq. reflexivity.
Qed.

(** [saveContract] touches the file system only. *)
Lemma saveContract_frame this outputPath s :
  let '(r, s') := saveContract this outputPath s in
  session s' = session s /\ terminal s' = terminal s /\ requests s' = requests s.
Proof.
  rewrite saveContract_eq.
  destruct (finalContract (session s)) as [[| c text] |]; repeat split.
Qed.

(** The run of [generateContract] is the run of the pipeline from the fresh
    session, as far as history, terminal and request log go. *)
Lemma generateContract_run join config s :
  let '(r, s') := generateContract join config s in
  exists n extra, n <= 5 /\ extra <= 1 /\
    runInv {| client := {| client_apiKey := apiKey config |}; config := config |}
      (setSession {| sessionPrompt := userPrompt config; conversationHistory := [];
                     contractDraft := None; finalContract := None |} s) n extra s'.
Proof.
  rewrite generateContract_eq. cbv zeta.
  pose proof (processContract_run join
                {| client := {| client_apiKey := apiKey config |}; config := config |}
                (setSession {| sessionPrompt := userPrompt config; conversationHistory := [];
                               contractDraft := None; finalContract := None |} s)) as H.
  destruct (processContract join _ _) as [[contract | e |] s2];
    destruct H as (n & extra & Hn & He & _ & H).
  - pose proof (saveContract_frame
                  {| client := {| client_apiKey := apiKey config |}; config := config |}
                  (outputFile config) s2) as Hs.
    destruct (saveContract _ _ s2) as [r s'].
    destruct Hs as (Hs1 & Hs2 & Hs3).
    exists n, extra. split_and!; [exact Hn | exact He |].
    eapply (runInv_frame _ _ n extra s2 s' []); [| | | reflexivity | exact H].
    + unfold history. rewrite Hs1. reflexivity.
    + exact Hs3.
    + rewrite app_nil_r. exact Hs2.
  - exists n, extra. split_and!; assumption.
  - exists n, extra. split_and!; assumption.
Qed.

(** ** The claims *)

(** C1. Every completed call of [executeStep] appends exactly two entries to
    the conversation history, the user message and then the assistant
    response, and a call that fails appends nothing.  A run of
    [processContract] only appends to the history: it ends with the history it
    started with, followed by two entries for each of the [N <= 5] stage
    calls that completed, user and assistant in turn; the request of index
    [i] carries the history of [i] completed stages, [2 * i] entries, between
    the system prompt and the new user message.  A run of [generateContract],
    which starts from the empty history of the constructor, ends with exactly
    [2 * N] entries. *)
Theorem history_two_entries_per_stage :
  (forall this stepName systemPrompt userMessage s,
     let '(r, s') := executeStep this stepName systemPrompt userMessage s in
     match r with
     | Ok response =>
         history s' = history s ++ [ {| role := user; content := userMessage |};
                                     {| role := assistant; content := response |} ]
         /\ completedStages (eventsDuring s s') = 1
     | _ => history s' = history s /\ completedStages (eventsDuring s s') = 0
     end) /\
  (forall join this s,
     let '(r, s') := processContract join this s in
     let N := completedStages (eventsDuring s s') in
     history s' = history s ++ addedDuring s s' /\
     length (addedDuring s s') = 2 * N /\
     alternating (addedDuring s s') /\
     N <= 5 /\
     (forall text, r = Ok text -> N = 5) /\
     (forall i request, sentDuring s s' !! i = Some request ->
        length (req_messages request) = length (history s) + 2 * i + 2)) /\
  (forall join config s,
     let '(r, s') := generateContract join config s in
     let N := completedStages (eventsDuring s s') in
     length (history s') = 2 * N /\
     N <= 5 /\
     (forall i request, sentDuring s s' !! i = Some request ->
        length (req_messages request) = 2 * i + 2)).
Proof.
  split; [| split].
  - intros this stepName systemPrompt userMessage s.
    rewrite executeStep_eq. cbv zeta.
    destruct (provider s (requests s) _) as [[resp | message] | cause];
      unfold eventsDuring; state_norm;
      rewrite <- app_assoc, drop_app_length; cbn [completedStages app].
    + rewrite stageCompleted_succeed. split; reflexivity.
    + split; reflexivity.
    + split; reflexivity.
  - intros join this s.
    pose proof (processContract_run join this s) as H.
    destruct (processContract join this s) as [r s'].
    destruct H as (n & extra & Hn & He & Hok & H).
    apply runInv_during in H.
    destruct H as (H1 & H2 & H3 & H4 & H5 & H6 & H7 & H8).
    cbv zeta. rewrite H4. split_and!; try assumption.
    + intros text Hr. apply (Hok text Hr).
    + intros i request Hi. apply (H8 i request Hi).
  - intros join config s.
    pose proof (generateContract_run join config s) as H.
    destruct (generateContract join config s) as [r s'].
    destruct H as (n & extra & Hn & He & H).
    apply runInv_during in H. revert H.
    unfold eventsDuring, sentDuring, addedDuring. state_norm.
    intros (H1 & H2 & H3 & H4 & H5 & H6 & H7 & H8).
    cbv zeta. rewrite H4. split_and!.
    + simpl in H5. exact H5.
    + exact Hn.
    + intros i request Hi. destruct (H8 i request Hi) as (_ & _ & Hl). exact Hl.
Qed.

(** C9. [generateContractStep] takes no configuration and calls
    [chatCompletion] with none, so its request goes out with the defaults:
    model gpt-4, temperature 0.7, at most 4000 tokens.  Every request of a run
    of [processContract], and of [generateContract], is such a request; there
    are at most six of them, and exactly six when the run returns: the five
    stage calls and the final call. *)
Theorem every_request_uses_the_defaults :
  (forall this systemPrompt userMessage h s,
     let '(r, s') := generateContractStep this systemPrompt userMessage h s in
     exists request,
       requests s' = requests s ++ [request] /\
       req_messages request = [ {| role := system; content := systemPrompt |} ] ++ h
                              ++ [ {| role := user; content := userMessage |} ] /\
       req_model request = lit "gpt-4" /\
       req_temperature request = 7 # 10 /\
       req_max_tokens request = 4000 # 1) /\
  (forall join this s,
     let '(r, s') := processContract join this s in
     requests s' = requests s ++ sentDuring s s' /\
     length (sentDuring s s') <= 6 /\
     (forall text, r = Ok text -> length (sentDuring s s') = 6) /\
     (forall request, request ∈ sentDuring s s' -> defaultsOnly request)) /\
  (forall join config s,
     let '(r, s') := generateContract join config s in
     requests s' = requests s ++ sentDuring s s' /\
     length (sentDuring s s') <= 6 /\
     (forall request, request ∈ sentDuring s s' -> defaultsOnly request)).
Proof.
  split; [| split].
  - intros this systemPrompt userMessage h s.
    rewrite generateContractStep_eq. cbv zeta.
    destruct (provider s (requests s) _) as [[resp | message] | cause];
      exists (stepRequest this systemPrompt userMessage h); repeat split.
  - intros join this s.
    pose proof (processContract_run join this s) as H.
    destruct (processContract join this s) as [r s'].
    destruct H as (n & extra & Hn & He & Hok & H).
    apply runInv_during in H.
    destruct H as (H1 & H2 & H3 & H4 & H5 & H6 & H7 & H8).
    split_and!.
    + exact H3.
    + lia.
    + intros text Hr. destruct (Hok text Hr) as [-> ->]. exact H7.
    + intros request Hin. apply list_elem_of_lookup in Hin as [i Hi].
      apply (H8 i request Hi).
  - intros join config s.
    pose proof (generateContract_run join config s) as H.
    destruct (generateContract join config s) as [r s'].
    destruct H as (n & extra & Hn & He & H).
    apply runInv_during in H. revert H. unfold sentDuring. state_norm.
    intros (H1 & H2 & H3 & H4 & H5 & H6 & H7 & H8).
    split_and!.
    + exact H3.
    + lia.
    + intros request Hin. apply list_elem_of_lookup in Hin as [i Hi].
      apply (H8 i request Hi).
Qed.

(** C5, as the code has it.  [chatCompletion] sends one request, with the
    messages it is given.  When the call resolves with a body that has a
    [choices] array it returns the content of the first choice, and the empty
    string when there is no first choice, no message or no content.  When the
    call resolves with a body without [choices], the read of [choices[0]]
    raises a [TypeError] inside the [try], and it throws although the remote
    call did not fail.  It throws exactly in these two cases, a failed call
    or a body without [choices], and never blocks; what it throws is always
    a plain [Error] whose message is the fixed prefix followed by the text of
    what was caught, so the cause of a failed call is kept in the message and
    its class is lost: two causes with the same text give the same error. *)
Theorem chatCompletion_returns_first_choice_or_wraps_error :
  forall this messages config s,
    let request :=
      {| bearer := client_apiKey this;
         req_model := default (lit "gpt-4") (model_opt config);
         req_messages := messages;
         req_temperature := default (7 # 10) (temperature_opt config);
         req_max_tokens := default (4000 # 1) (maxTokens_opt config) |} in
    let '(r, s') := chatCompletion this messages config s in
    s' = setRequests (requests s ++ [request]) s /\
    match provider s (requests s) request with
    | Responded response =>
        match firstContent response with
        | Some text => r = Ok text
        | None => r = Ok []
        end
    | Resolved (Unshaped message) =>
        r = Throw (ErrorObject PlainError (lit "OpenAI API error: " ++ message))
    | Failed cause =>
        r = Throw (ErrorObject PlainError (lit "OpenAI API error: " ++ errorText cause))
    end /\
    ((exists e, r = Throw e) <->
     (exists cause, provider s (requests s) request = Failed cause) \/
     (exists message, provider s (requests s) request = Resolved (Unshaped message))) /\
    r <> Blocked /\
    (forall cause cause',
       errorText cause = errorText cause' ->
       provider s (requests s) request = Failed cause ->
       r = Throw (ErrorObject PlainError (lit "OpenAI API error: " ++ errorText cause'))).
Proof.
  intros this messages config s. cbv zeta.
  unfold chatCompletion, tryCatch. rewrite bind_eq. unfold create. cbn -[lit].
  destruct (provider s (requests s) _) as [[response | message] | cause] eqn:Hp;
    cbn -[lit].
  - split_and!; try reflexivity; try discriminate.
    + unfold orElse. destruct (firstContent response) as [[| c text] |]; reflexivity.
    + split; [intros [x Hx]; discriminate | intros [[x Hx] | [x Hx]]; discriminate].
  - unfold throw, newError. split_and!; try reflexivity; try discriminate.
    split; intros _; eauto.
  - unfold throw, newError. split_and!; try reflexivity; try discriminate.
    + split; intros _; eauto.
    + intros c1 c2 Htext [= <-]. rewrite Htext. reflexivity.
Qed.


(** C4, as the code has it.  [saveContract] throws the precondition error,
    and leaves the file system as it is, when the session has no final text
    or an empty one.  With a final text that is not empty it writes that text
    to the path it is given, when that path is not empty, and else to
    [german_freelance_contract_<now>.txt]; no other file changes.  A
    processor that never ran the pipeline has no final text. *)
Theorem saveContract_writes_the_final_text :
  (forall this outputPath s,
     let '(r, s') := saveContract this outputPath s in
     match finalContract (session s) with
     | Some (c :: text) =>
         let filename :=
           match outputPath with
           | Some (p :: path) => p :: path
           | _ => lit "german_freelance_contract_" ++ stringOfInt (now s) ++ lit ".txt"
           end in
         r = Ok tt /\
         fs s' !! filename = Some (c :: text) /\
         (forall other, other <> filename -> fs s' !! other = fs s !! other)
     | _ =>
         r = Throw (newError (lit "No contract to save. Run processContract() first.")) /\
         fs s' = fs s
     end) /\
  (forall config outputPath s,
     let '(r, s') := (this <- newContractProcessor config ;;
                      saveContract this outputPath) s in
     r = Throw (newError (lit "No contract to save. Run processContract() first.")) /\
     fs s' = fs s).
Proof.
  split.
  - intros this outputPath s. rewrite saveContract_eq.
    destruct (finalContract (session s)) as [[| c text] |]; try (split; reflexivity).
    cbv zeta. state_norm. split_and!.
    + reflexivity.
    + apply lookup_insert_eq.
    + intros other Hne. apply lookup_insert_ne. congruence.
  - intros config outputPath s. rewrite bind_eq. cbn -[saveContract lit].
    rewrite saveContract_eq. state_norm. split; reflexivity.
Qed.

(** ** cli.ts *)

Lemma bind_gets {A B} (f : State -> A) (k : A -> M B) s :
  bind (gets f) k s = k (f s) s.
Proof. reflexivity. Qed.

Lemma bind_assoc {A B C} (m : M A) (k : A -> M B) (k' : B -> M C) s :
  bind (bind m k) k' s = bind m (fun a => bind (k a) k') s.
Proof. rewrite !bind_eq. destruct (m s) as [[a | e |] s1]; reflexivity. Qed.

Lemma asked_app t1 t2 : asked (t1 ++ t2) = asked t1 ++ asked t2.
Proof. apply omap_app. Qed.

Lemma answers_app t1 t2 : answers (t1 ++ t2) = answers t1 ++ answers t2.
Proof. apply omap_app. Qed.

Lemma asked_Asked q : asked [Asked q] = [q].
Proof. reflexivity. Qed.

Lemma answers_Asked q : answers [Asked q] = [].
Proof. reflexivity. Qed.

Lemma asked_nil : asked [] = [].
Proof. reflexivity. Qed.

Lemma answers_nil : answers [] = [].
Proof. reflexivity. Qed.

Lemma drop_length_nil {A} (l : list A) : drop (length l) l = [].
Proof. apply drop_all. Qed.

Lemma questions_differ : passwordQuestion <> descriptionQuestion.
Proof. discriminate. Qed.

Lemma validateDescription_Valid input :
  validateDescription input = Valid <-> 10 <= length (trim input).
Proof.
  unfold validateDescription.
  destruct (length (trim input) <? 10) eqn:E.
  - apply Nat.ltb_lt in E. split; [discriminate | lia].
  - apply Nat.ltb_ge in E. split; [intros _; exact E | reflexivity].
Qed.

Lemma askResult_first_valid default validate lines :
  askResult default validate lines =
  match List.find (fun line => match validate (filterInput default line) with
                               | Valid => true
                               | Invalid _ => false
                               end) lines with
  | Some line => Ok (filterInput default line)
  | None => Blocked
  end.
Proof.
  induction lines as [| line rest IH]; simpl; [reflexivity |].
  destruct (validate (filterInput default line)); [reflexivity | exact IH].
Qed.

(** One call of a configuration function on the state it is applied to. *)
Ltac ask_step :=
  rewrite ?bind_eq, prompt_eq; state_norm;
  lazymatch goal with
  | |- context [askResult ?d ?v ?l] =>
      let Ha := fresh "Ha" in
      destruct (askResult d v l) as [? | ? |] eqn:Ha;
      [ | exfalso; exact (askResult_not_Throw _ _ _ _ Ha) | ]
  end; cbv beta iota; state_norm.

Ltac cfg_step :=
  lazymatch goal with
  | |- context [bind (bind _ _) _ _] => rewrite bind_assoc
  | |- context [bind (ret _) _ _] => rewrite bind_ret
  | |- context [bind (gets _) _ _] => rewrite bind_gets; cbv beta
  | |- context [bind (prompt _ _ _) _ _] => ask_step
  | |- context [prompt _ _ _ _] => ask_step
  | |- context [match opt_apiKey ?o with _ => _ end] =>
      let H := fresh "Hflag" in destruct (opt_apiKey o) as [[| ? ?] |] eqn:H
  | |- context [match opt_prompt ?o with _ => _ end] =>
      let H := fresh "Hprompt" in destruct (opt_prompt o) as [[| ? ?] |] eqn:H
  | |- context [match envKey ?s with _ => _ end] =>
      let H := fresh "Henv" in destruct (envKey s) as [[| ? ?] |] eqn:H
  | |- context [match trim ?x with _ => _ end] =>
      let H := fresh "Htrim" in destruct (trim x) eqn:H
  end.

Ltac events_norm :=
  unfold eventsDuring, sentDuring; state_norm;
  rewrite <- ?app_assoc, ?drop_app_length, ?drop_length_nil;
  rewrite ?asked_app, ?answers_app, ?asked_askEvents, ?answers_askEvents,
    ?asked_Asked, ?answers_Asked, ?asked_nil, ?answers_nil;
  repeat match goal with H : askResult _ _ _ = _ |- _ => rewrite H end;
  rewrite ?app_nil_r; cbn [app apiKey userPrompt directory outputFile].

Ltac elems :=
  repeat match goal with
         | H : _ ∈ [] |- _ => exfalso; exact (not_elem_of_nil _ H)
         | H : _ ∈ _ :: _ |- _ => apply elem_of_cons in H as [H | H]
         | H : passwordQuestion = descriptionQuestion |- _ =>
             exfalso; exact (questions_differ H)
         | H : passwordQuestion = lit _ |- _ => discriminate H
         | |- _ ∉ _ => intros ?
         | |- ?x ∈ ?x :: _ => apply list_elem_of_here
         | |- _ ∈ _ :: _ => apply list_elem_of_further
         end.

Ltac cfg_leaf :=
  repeat first [progress split_and! | progress intros]; simplify_eq;
  cbn [apiKey userPrompt directory outputFile];
  try match goal with
      | H : trim ?e = [] |- _ \/ (exists e', Some ?e = Some e' /\ _) =>
          right; exists e; split; [reflexivity | exact H]
      | |- _ \/ (exists e', Some [] = Some e' /\ _) =>
          right; exists []; split; reflexivity
      | |- None = None \/ _ => left; reflexivity
      end;
  try reflexivity; try discriminate; try congruence;
  try (apply validateDescription_Valid; eapply askResult_valid; eassumption);
  try solve [elems].

Lemma getConfiguration_resolves : ApiKeyResolution getConfiguration.
Proof.
  intros options s. unfold getConfiguration.
  repeat cfg_step. all: unfold ret. all: events_norm. all: cfg_leaf.
Qed.

Lemma getInteractiveConfiguration_resolves : ApiKeyResolution getInteractiveConfiguration.
Proof.
  intros options s. unfold getInteractiveConfiguration.
  repeat cfg_step. all: unfold ret. all: events_norm. all: cfg_leaf.
Qed.

Lemma getConfiguration_requests options s :
  requests (snd (getConfiguration options s)) = requests s.
Proof.
  unfold getConfiguration.
  repeat cfg_step. all: reflexivity.
Qed.

Lemma getInteractiveConfiguration_requests options s :
  requests (snd (getInteractiveConfiguration options s)) = requests s.
Proof.
  unfold getInteractiveConfiguration.
  repeat cfg_step. all: reflexivity.
Qed.

Lemma getConfiguration_checks : DescriptionChecked getConfiguration false.
Proof.
  intros options s Hp. unfold getConfiguration.
  repeat cfg_step. all: unfold ret. all: events_norm.
  all: try (rewrite Hprompt in Hp; discriminate Hp).
  all: cfg_leaf.
Qed.

Lemma getInteractiveConfiguration_checks : DescriptionChecked getInteractiveConfiguration true.
Proof.
  intros options s _. unfold getInteractiveConfiguration.
  repeat cfg_step. all: unfold ret. all: events_norm. all: cfg_leaf.
Qed.

(** The requests of a command are those of [generateContract], made with the
    key of the configuration. *)
Lemma action_requests join configure options s :
  (forall o s1, requests (snd (configure o s1)) = requests s1) ->
  let '(r, s') := action join configure options s in
  forall request, request ∈ sentDuring s s' ->
    exists cfg s1, configure options s = (Ok cfg, s1) /\ bearer request = apiKey cfg.
Proof.
  intros Hframe. unfold action, tryCatch. rewrite bind_eq.
  specialize (Hframe options s).
  destruct (configure options s) as [[cfg | e |] s1]; simpl in Hframe.
  - rewrite bind_eq.
    pose proof (generateContract_run join cfg s1) as H.
    destruct (generateContract join cfg s1) as [[[] | e |] s2];
      destruct H as (n & extra & _ & _ & H);
      apply runInv_during in H; revert H; unfold sentDuring; state_norm;
      rewrite Hframe; intros (_ & _ & _ & _ & _ & _ & _ & H);
      unfold ret; cbv beta iota;
      intros request Hin; apply list_elem_of_lookup in Hin as [i Hi];
      exists cfg, s1; (split; [reflexivity | apply (H i request Hi)]).
  - unfold ret. unfold sentDuring. rewrite Hframe, drop_length_nil.
    intros request Hin. exfalso. exact (not_elem_of_nil _ Hin).
  - unfold sentDuring. rewrite Hframe, drop_length_nil.
    intros request Hin. exfalso. exact (not_elem_of_nil _ Hin).
Qed.

Lemma flag_key_on_requests join configure :
  ApiKeyResolution configure ->
  (forall o s1, requests (snd (configure o s1)) = requests s1) ->
  FlagKeyOnRequests (action join configure).
Proof.
  intros Hres Hframe options s c key Hflag.
  pose proof (action_requests join configure options s Hframe) as H.
  destruct (action join configure options s) as [r s'].
  intros request Hin. destruct (H request Hin) as (cfg & s1 & Hcfg & ->).
  specialize (Hres options s). rewrite Hcfg in Hres.
  destruct Hres as (Hres & _). destruct (Hres c key Hflag) as (_ & Hkey).
  apply Hkey. reflexivity.
Qed.


(** C10. The validator of the description question accepts an input exactly
    when its trimmed length is at least 10; the question goes through the
    lines typed, rejecting each one that is shorter, and returns the first one
    that is not, or stays unanswered when there is none.  So a description
    that [getConfiguration] took from the terminal, which it does when the
    [--prompt] flag gives none, and every description that
    [getInteractiveConfiguration] returns, has a trimmed length of at least
    10 and is the answer to that question. *)
Theorem description_has_ten_characters :
  (forall input, validateDescription input = Valid <-> 10 <= length (trim input)) /\
  (forall s,
     fst (prompt descriptionQuestion None validateDescription s) =
     match List.find (fun line => 10 <=? length (trim line)) (stdin s) with
     | Some line => Ok line
     | None => Blocked
     end) /\
  DescriptionChecked getConfiguration false /\
  DescriptionChecked getInteractiveConfiguration true.
Proof.
  split_and!.
  - exact validateDescription_Valid.
  - intros s. rewrite prompt_eq. cbn [fst].
    induction (stdin s) as [| line rest IH]; [reflexivity |].
    cbn [askResult List.find].
    replace (filterInput None line) with line by (destruct line; reflexivity).
    unfold validateDescription at 1.
    destruct (length (trim line) <? 10) eqn:E.
    + apply Nat.ltb_lt in E.
      replace (10 <=? length (trim line)) with false
        by (symmetry; apply Nat.leb_gt; exact E).
      exact IH.
    + apply Nat.ltb_ge in E.
      replace (10 <=? length (trim line)) with true
        by (symmetry; apply Nat.leb_le; exact E).
      reflexivity.
  - exact getConfiguration_checks.
  - exact getInteractiveConfiguration_checks.
Qed.

(** ** Runs of the pipeline, stage by stage *)

Ltac hide_all_literals :=
  repeat match goal with
         | |- context [lit ?str] => let q := fresh "txt" in set (q := lit str) in *
         | H : context [lit ?str] |- _ => let q := fresh "txt" in set (q := lit str) in *
         end.

Ltac during_norm :=
  unfold sentDuring, addedDuring, eventsDuring; state_norm;
  rewrite <- ?app_assoc, ?drop_app_length, ?drop_length_nil; cbn [app].

Ltac norm_hyps :=
  repeat match goal with
         | H : provider _ _ _ = _ |- _ =>
             progress (rewrite <- ?app_assoc in H; cbn [app] in H)
         end.

Ltac count_stages :=
  repeat (cbn [completedStages];
          rewrite ?completedStages_app, ?completedStages_askEvents,
            ?stageCompleted_succeed);
  cbn [stageCompleted Nat.add].

Ltac answers_norm :=
  rewrite ?answers_app, ?answers_askEvents;
  repeat (cbn [answers omap list_omap app];
          rewrite ?answers_app, ?answers_askEvents);
  repeat match goal with H : askResult _ _ _ = _ |- _ => rewrite H end;
  cbn [app].

Lemma stepRequest_head this systemPrompt userMessage h :
  head (req_messages (stepRequest this systemPrompt userMessage h)) =
  Some {| role := system; content := systemPrompt |}.
Proof. reflexivity. Qed.

Lemma stepRequest_last this systemPrompt userMessage h :
  last (req_messages (stepRequest this systemPrompt userMessage h)) =
  Some {| role := user; content := userMessage |}.
Proof.
  cbn [req_messages stepRequest]. rewrite app_assoc. apply last_snoc.
Qed.


(** C3. The fifth request of a run is the Explain call.  The last of its
    messages is a user message made of four labelled sections, in this order:
    the user prompt of the session; the completion of the third request, the
    Draft call, whose system prompt is the draft template; the completion of
    the fourth request, the Verify call, whose system prompt is the verify
    template; and the fourth answer given on the terminal, the one to the
    question asked after the Verify stage.  Nothing else goes into it: not the
    answers to the questions asked after the Confirm and Draft stages. *)
Theorem explain_message_contents :
  forall join this s,
    let '(r, s') := processContract join this s in
    forall request, sentDuring s s' !! 4 = Some request ->
    exists draftTemplate draftRequest draftResponse
           verifyTemplate verifyRequest verifyResponse
           explainTemplate feedback,
      fs s !! join (directory (config this)) (lit "draft.txt") = Some draftTemplate /\
      sentDuring s s' !! 2 = Some draftRequest /\
      head (req_messages draftRequest) =
        Some {| role := system; content := trim draftTemplate |} /\
      provider s (requests s ++ take 2 (sentDuring s s')) draftRequest
        = Responded draftResponse /\
      fs s !! join (directory (config this)) (lit "verify.txt") = Some verifyTemplate /\
      sentDuring s s' !! 3 = Some verifyRequest /\
      head (req_messages verifyRequest) =
        Some {| role := system; content := trim verifyTemplate |} /\
      provider s (requests s ++ take 3 (sentDuring s s')) verifyRequest
        = Responded verifyResponse /\
      answers (eventsDuring s s') !! 3 =
        Some (lit "Please review the verification feedback and provide any final adjustments:",
              feedback) /\
      fs s !! join (directory (config this)) (lit "explain.txt") = Some explainTemplate /\
      head (req_messages request) =
        Some {| role := system; content := trim explainTemplate |} /\
      last (req_messages request) =
        Some {| role := user;
                content :=
                  lit "User Request: " ++ sessionPrompt (session s) ++ [LF; LF]
                  ++ lit "Final Contract: " ++ completion draftResponse ++ [LF; LF]
                  ++ lit "Verification Notes: " ++ completion verifyResponse ++ [LF; LF]
                  ++ lit "Final Adjustments: " ++ feedback |}.
Proof.
  intros join this s.
  unfold processContract. rewrite tryCatch_rethrow.
  hide_literals.
  repeat run_step.
  all: unfold ret; cbv beta iota; during_norm.
  all: intros request Hreq; try discriminate Hreq.
  all: cbn in Hreq; injection Hreq as <-.
  all: norm_hyps.
  all: eexists _, _, _, _, _, _, _, _; split_and!;
    [ reflexivity | reflexivity | apply stepRequest_head | cbn [take]; eassumption
    | reflexivity | reflexivity | apply stepRequest_head | cbn [take]; eassumption
    | answers_norm; reflexivity | reflexivity | apply stepRequest_head
    | rewrite stepRequest_last; reflexivity ].
Qed.

(** C6. [generateFinalContract] sends one request: its own system prompt,
    then the conversation history as it stands, then its fixed user message;
    it leaves the session, and so the history, as it was, whether the call
    returns or throws.  When [processContract] returns a text, that text is
    the completion of the sixth request, the final call, which carried the
    whole history of ten entries with which the run ends, and it is the final
    text of the session. *)
Theorem final_call_reuses_history_without_appending :
  (forall this draft verification userAdjustments userExplanation s,
     let '(r, s') :=
       generateFinalContract this draft verification userAdjustments userExplanation s in
     exists request,
       requests s' = requests s ++ [request] /\
       req_messages request =
         [ {| role := system;
              content := finalPromptText draft verification userAdjustments
                           userExplanation |} ]
         ++ history s
         ++ [ {| role := user;
                 content := lit "Generate the final German freelance contract" |} ] /\
       session s' = session s /\
       match provider s (requests s) request with
       | Responded response => r = Ok (completion response)
       | Resolved (Unshaped message) => r = Throw (wrapped (typeError message))
       | Failed cause => r = Throw (wrapped cause)
       end) /\
  (forall join this s,
     let '(r, s') := processContract join this s in
     forall text, r = Ok text ->
       finalContract (session s') = Some text /\
       length (addedDuring s s') = 10 /\
       exists request response draft verification adjustments notes,
         sentDuring s s' !! 5 = Some request /\
         req_messages request =
           [ {| role := system;
                content := finalPromptText draft verification adjustments notes |} ]
           ++ history s'
           ++ [ {| role := user;
                   content := lit "Generate the final German freelance contract" |} ] /\
         provider s (requests s ++ take 5 (sentDuring s s')) request = Responded response /\
         text = completion response /\
         contractDraft (session s') = Some draft).
Proof.
  split.
  - intros this draft verification userAdjustments userExplanation s.
    rewrite generateFinalContract_eq. cbv zeta.
    destruct (provider s (requests s) _) as [[response | message] | cause] eqn:Hp;
      eexists; (split; [reflexivity |]); rewrite Hp; repeat split.
  - intros join this s.
    unfold processContract. rewrite tryCatch_rethrow.
    hide_literals.
    repeat run_step.
    all: unfold ret; cbv beta iota; intros text Hr; try discriminate Hr.
    injection Hr as <-. during_norm.
    split; [reflexivity |]. split; [reflexivity |].
    norm_hyps.
    eexists _, _, _, _, _, _. split_and!.
    + reflexivity.
    + cbn [req_messages stepRequest]. rewrite <- ?app_assoc. reflexivity.
    + cbn [take]. eassumption.
    + reflexivity.
    + reflexivity.
Qed.

(** ** The end-to-end scenario, evaluated *)

Example scenario_final_text :
  fst (processContract sampleJoin sampleProcessor sampleStarted) = Ok (lit "FINAL_TEXT").
Proof. vm_compute. reflexivity. Qed.

Example scenario_history_length :
  length (history (snd (processContract sampleJoin sampleProcessor sampleStarted))) = 10.
Proof. vm_compute. reflexivity. Qed.

Example scenario_saved :
  let '(r, s') := generateContract sampleJoin sampleConfig sampleState in
  r = Ok tt /\ fs s' !! lit "out.txt" = Some (lit "FINAL_TEXT").
Proof. vm_compute. split; reflexivity. Qed.

Example scenario_exit_status :
  fst (generateCommand sampleJoin
         {| opt_apiKey := Some (lit "sk-flag");
            opt_prompt := Some (lit "Berlin startup needs a 3-month freelance dev contract");
            opt_directory := Some (lit "prompts");
            opt_output := Some (lit "out.txt") |} sampleState) = Ok 0%Z.
Proof. vm_compute. reflexivity. Qed.

(** ** Where the claims as first stated fail *)


(** Against C4 as stated: the pipeline ran and set the final text, to the
    empty string the provider completed, an output path is given, and yet
    [saveContract] throws the precondition error and writes no file. *)
Lemma empty_final_text_counterexample :
  outputFile sampleConfig = Some (lit "out.txt") /\
  finalContract (session (snd (generateContract sampleJoin sampleConfig emptyFinalState)))
    = Some [] /\
  fst (generateContract sampleJoin sampleConfig emptyFinalState)
    = Throw (newError (lit "No contract to save. Run processContract() first.")) /\
  fs (snd (generateContract sampleJoin sampleConfig emptyFinalState)) !! lit "out.txt" = None.
Proof. vm_compute. repeat split. Qed.


(** Against C5 as stated: the remote call does not fail, it resolves, with a
    body that has no [choices]; and yet [chatCompletion] throws, and the
    message of its error is that of the [TypeError], not a cause of the
    provider's. *)
Lemma body_without_choices_counterexample :
  let r := fst (chatCompletion {| client_apiKey := lit "sk-flag" |}
                  [ {| role := user; content := lit "hello" |} ] emptyConfig
                  errorBodyState) in
  provider errorBodyState (requests errorBodyState) helloRequest
    = Resolved (Unshaped noChoicesMessage) /\
  requests (snd (chatCompletion {| client_apiKey := lit "sk-flag" |}
                   [ {| role := user; content := lit "hello" |} ] emptyConfig
                   errorBodyState)) = [helloRequest] /\
  r = Throw (newError (lit "OpenAI API error: " ++ noChoicesMessage)) /\
  ~ ((exists e, r = Throw e) <->
     (exists cause,
        provider errorBodyState (requests errorBodyState) helloRequest = Failed cause)).
Proof.
  cbv zeta. split_and!; [reflexivity | reflexivity | reflexivity |].
  intros [Hthrows _].
  destruct Hthrows as [cause Hcause]; [eexists; reflexivity | discriminate Hcause].
Qed.

(** ** The claims at work on the concrete world *)

Lemma history_two_entries_per_stage_witness :
  completedStages (eventsDuring failingVerifyState
                     (snd (generateContract sampleJoin sampleConfig failingVerifyState))) = 3 /\
  length (history (snd (generateContract sampleJoin sampleConfig failingVerifyState))) = 2 * 3.
Proof.
  pose proof (proj2 (proj2 history_two_entries_per_stage)
                sampleJoin sampleConfig failingVerifyState) as H.
  assert (completedStages
            (eventsDuring failingVerifyState
               (snd (generateContract sampleJoin sampleConfig failingVerifyState))) = 3) as HN
    by (vm_compute; reflexivity).
  split; [exact HN |].
  destruct (generateContract sampleJoin sampleConfig failingVerifyState) as [r s'].
  cbn [snd] in *. cbv zeta in H. rewrite HN in H. exact (proj1 H).
Defined.


Lemma explain_message_contents_witness :
  exists request feedback,
    sentDuring sampleStarted
      (snd (processContract sampleJoin sampleProcessor sampleStarted)) !! 4 = Some request /\
    answers (eventsDuring sampleStarted
               (snd (processContract sampleJoin sampleProcessor sampleStarted))) !! 3
      = Some (lit "Please review the verification feedback and provide any final adjustments:",
              feedback) /\
    feedback = lit "Verification feedback looks good" /\
    exists draftResponse verifyResponse,
      last (req_messages request) =
        Some {| role := user;
                content :=
                  lit "User Request: " ++ sessionPrompt (session sampleStarted) ++ [LF; LF]
                  ++ lit "Final Contract: " ++ completion draftResponse ++ [LF; LF]
                  ++ lit "Verification Notes: " ++ completion verifyResponse ++ [LF; LF]
                  ++ lit "Final Adjustments: " ++ feedback |}.
Proof.
  pose proof (explain_message_contents sampleJoin sampleProcessor sampleStarted) as H.
  assert (exists request,
            sentDuring sampleStarted
              (snd (processContract sampleJoin sampleProcessor sampleStarted)) !! 4
            = Some request) as [request Hreq]
    by (eexists; vm_compute; reflexivity).
  assert (answers (eventsDuring sampleStarted
                     (snd (processContract sampleJoin sampleProcessor sampleStarted))) !! 3
          = Some (lit "Please review the verification feedback and provide any final adjustments:",
                  lit "Verification feedback looks good")) as Hans
    by (vm_compute; reflexivity).
  destruct (processContract sampleJoin sampleProcessor sampleStarted) as [r s'].
  cbn [snd] in *.
  destruct (H request Hreq)
    as (dt & dreq & dresp & vt & vreq & vresp & et & fb & _ & _ & _ & _ & _ & _ & _ & _
        & Hfb & _ & _ & Hlast).
  rewrite Hans in Hfb. injection Hfb as <-.
  exists request, (lit "Verification feedback looks good").
  split; [exact Hreq |]. split; [exact Hans |]. split; [reflexivity |].
  exists dresp, vresp. exact Hlast.
Defined.

Lemma saveContract_writes_the_final_text_witness :
  finalContract (session (snd (processContract sampleJoin sampleProcessor sampleStarted)))
    = Some (lit "FINAL_TEXT") /\
  fs (snd (saveContract sampleProcessor (Some (lit "out.txt"))
             (snd (processContract sampleJoin sampleProcessor sampleStarted))))
    !! lit "out.txt" = Some (lit "FINAL_TEXT") /\
  fs (snd (saveContract sampleProcessor None
             (snd (processContract sampleJoin sampleProcessor sampleStarted))))
    !! lit "german_freelance_contract_1700000000000.txt" = Some (lit "FINAL_TEXT").
Proof.
  assert (finalContract
            (session (snd (processContract sampleJoin sampleProcessor sampleStarted)))
          = Some (lit "FINAL_TEXT")) as Hfinal by (vm_compute; reflexivity).
  assert (now (snd (processContract sampleJoin sampleProcessor sampleStarted))
          = 1700000000000%Z) as Hnow by (vm_compute; reflexivity).
  split; [exact Hfinal |].
  pose proof (proj1 saveContract_writes_the_final_text sampleProcessor
                (Some (lit "out.txt"))
                (snd (processContract sampleJoin sampleProcessor sampleStarted))) as H1.
  pose proof (proj1 saveContract_writes_the_final_text sampleProcessor None
                (snd (processContract sampleJoin sampleProcessor sampleStarted))) as H2.
  destruct (saveContract sampleProcessor (Some (lit "out.txt")) _) as [r1 s1].
  destruct (saveContract sampleProcessor None _) as [r2 s2].
  rewrite Hfinal in H1, H2. rewrite Hnow in H2. cbn [snd].
  split; [exact (proj1 (proj2 H1)) | exact (proj1 (proj2 H2))].
Defined.

Lemma chatCompletion_returns_first_choice_or_wraps_error_witness :
  fst (chatCompletion {| client_apiKey := lit "sk-flag" |}
         [ {| role := user; content := lit "hello" |} ] emptyConfig rateLimitedState)
  = Throw (ErrorObject PlainError (lit "OpenAI API error: 429 Too Many Requests")) /\
  fst (chatCompletion {| client_apiKey := lit "sk-flag" |}
         [ {| role := user; content := lit "hello" |} ] emptyConfig sampleState)
  = Ok (lit "INTAKE_OK") /\
  fst (chatCompletion {| client_apiKey := lit "sk-flag" |}
         [ {| role := user; content := lit "hello" |} ] emptyConfig errorBodyState)
  = Throw (ErrorObject PlainError (lit "OpenAI API error: " ++ noChoicesMessage)).
Proof.
  pose proof (chatCompletion_returns_first_choice_or_wraps_error
                {| client_apiKey := lit "sk-flag" |}
                [ {| role := user; content := lit "hello" |} ] emptyConfig
                rateLimitedState) as H1.
  pose proof (chatCompletion_returns_first_choice_or_wraps_error
                {| client_apiKey := lit "sk-flag" |}
                [ {| role := user; content := lit "hello" |} ] emptyConfig
                sampleState) as H2.
  pose proof (chatCompletion_returns_first_choice_or_wraps_error
                {| client_apiKey := lit "sk-flag" |}
                [ {| role := user; content := lit "hello" |} ] emptyConfig
                errorBodyState) as H3.
  destruct (chatCompletion _ _ _ rateLimitedState) as [r1 s1].
  destruct (chatCompletion _ _ _ sampleState) as [r2 s2].
  destruct (chatCompletion _ _ _ errorBodyState) as [r3 s3].
  vm_compute in H1, H2, H3. vm_compute.
  split_and!; [exact (proj1 (proj2 H1)) | exact (proj1 (proj2 H2)) | exact (proj1 (proj2 H3))].
Defined.

Lemma final_call_reuses_history_without_appending_witness :
  fst (processContract sampleJoin sampleProcessor sampleStarted) = Ok (lit "FINAL_TEXT") /\
  finalContract (session (snd (processContract sampleJoin sampleProcessor sampleStarted)))
    = Some (lit "FINAL_TEXT") /\
  length (addedDuring sampleStarted
            (snd (processContract sampleJoin sampleProcessor sampleStarted))) = 10.
Proof.
  assert (fst (processContract sampleJoin sampleProcessor sampleStarted)
          = Ok (lit "FINAL_TEXT")) as Hr by (vm_compute; reflexivity).
  split; [exact Hr |].
  pose proof (proj2 final_call_reuses_history_without_appending
                sampleJoin sampleProcessor sampleStarted) as H.
  destruct (processContract sampleJoin sampleProcessor sampleStarted) as [r s'].
  cbn [fst snd] in *.
  destruct (H _ Hr) as (H1 & H2 & _). split; [exact H1 | exact H2].
Defined.



Lemma every_request_uses_the_defaults_witness :
  length (sentDuring sampleState
            (snd (generateContract sampleJoin sampleConfig sampleState))) = 6 /\
  (forall request,
     request ∈ sentDuring sampleState
                 (snd (generateContract sampleJoin sampleConfig sampleState)) ->
     req_model request = lit "gpt-4" /\
     req_temperature request = 7 # 10 /\
     req_max_tokens request = 4000 # 1).
Proof.
  split; [vm_compute; reflexivity |].
  pose proof (proj2 (proj2 every_request_uses_the_defaults)
                sampleJoin sampleConfig sampleState) as H.
  destruct (generateContract sampleJoin sampleConfig sampleState) as [r s'].
  destruct H as (_ & _ & H). exact H.
Defined.

Lemma description_has_ten_characters_witness :
  truthy (opt_prompt noPromptOptions) = false /\
  exists cfg,
    fst (getConfiguration noPromptOptions typingState) = Ok cfg /\
    userPrompt cfg = lit "Web shop for a Berlin startup" /\
    10 <= length (trim (userPrompt cfg)).
Proof.
  assert (truthy (opt_prompt noPromptOptions) = false) as Hp by reflexivity.
  split; [exact Hp |].
  assert (exists cfg, fst (getConfiguration noPromptOptions typingState) = Ok cfg /\
                      userPrompt cfg = lit "Web shop for a Berlin startup")
    as (cfg & Hcfg & Hprompt)
    by (eexists; split; vm_compute; reflexivity).
  exists cfg. split; [exact Hcfg |]. split; [exact Hprompt |].
  pose proof (proj1 (proj2 (proj2 description_has_ten_characters))
                noPromptOptions typingState Hp) as H.
  destruct (getConfiguration noPromptOptions typingState) as [r s'].
  cbn [fst] in Hcfg. exact (proj1 (H cfg Hcfg)).
Defined.

(** * More of the code *)

(** ** A run of the pipeline, request by request *)

Lemma stageCompleted_final :
  stageCompleted (SpinnerSucceed (lit "Final contract generated")) = false.
Proof. vm_compute. reflexivity. Qed.

Ltac state_norm_in H :=
  cbn [fs envKey now provider stdin requests terminal session history
       setFs setStdin setRequests setTerminal setSession
       setHistory setDraft setFinal
       sessionPrompt conversationHistory contractDraft finalContract] in H.

Ltac asked_norm :=
  rewrite ?asked_app, ?asked_askEvents;
  repeat (cbn [asked omap list_omap app];
          rewrite ?asked_app, ?asked_askEvents);
  rewrite ?app_nil_r; cbn [app].

Ltac ex_all := repeat lazymatch goal with |- ex _ => eexists end.

Ltac solve_fact :=
  first
    [ reflexivity
    | cbn [take Nat.mul Nat.add]; rewrite ?app_nil_r; reflexivity
    | eexists; split;
      [ reflexivity
      | cbn [take]; rewrite ?app_nil_r; first [ eassumption | reflexivity ] ] ].

(** At the end of a run started in [s]: name the final state, and compute
    once what the run sent, asked, was answered, and added. *)
Ltac observe s :=
  lazymatch goal with
  | |- _ _ ?S' =>
      let fin := fresh "fin" in
      set (fin := S');
      let xs := fresh "xs" in
      let Hs := fresh "Hsent" in
      evar (xs : list Request);
      assert (Hs : sentDuring s fin = xs)
        by (subst fin xs; during_norm; reflexivity);
      let xe := fresh "xe" in
      let He := fresh "Hevents" in
      evar (xe : list Event);
      assert (He : eventsDuring s fin = xe)
        by (subst fin xe; during_norm; reflexivity);
      subst xe;
      let xa := fresh "xa" in
      let Ha := fresh "Hanswers" in
      evar (xa : list (jsstring * jsstring));
      assert (Ha : answers (eventsDuring s fin) = xa)
        by (rewrite He; subst xa; answers_norm; reflexivity);
      let xq := fresh "xq" in
      let Hq := fresh "Hasked" in
      evar (xq : list jsstring);
      assert (Hq : asked (eventsDuring s fin) = xq)
        by (rewrite He; subst xq; asked_norm; reflexivity);
      let xn := fresh "xn" in
      let Hn := fresh "Hcompleted" in
      evar (xn : nat);
      assert (Hn : completedStages (eventsDuring s fin) = xn)
        by (rewrite He; subst xn; count_stages;
            rewrite ?stageCompleted_final; cbn [Nat.add]; reflexivity);
      clear He;
      let xh := fresh "xh" in
      let Hh := fresh "Hadded" in
      evar (xh : list Message);
      assert (Hh : addedDuring s fin = xh)
        by (subst fin xh; during_norm; reflexivity);
      let xd := fresh "xd" in
      let Hd := fresh "Hdraft" in
      evar (xd : option jsstring);
      assert (Hd : contractDraft (session fin) = xd)
        by (subst fin xd; state_norm; reflexivity);
      let xf := fresh "xf" in
      let Hf := fresh "Hfinal" in
      evar (xf : option jsstring);
      assert (Hf : finalContract (session fin) = xf)
        by (subst fin xf; state_norm; reflexivity);
      assert (fs fin = fs s) as Hfsfin by (subst fin; reflexivity);
      assert (now fin = now s) as Hnowfin by (subst fin; reflexivity);
      assert (sessionPrompt (session fin) = sessionPrompt (session s)) as Hpromptfin
        by (subst fin; reflexivity);
      subst xs xa xh xd xq xn xf; clearbody fin
  end.

(** Every request of a run, and what else the run leaves. *)
Lemma processContract_summary join this s :
  let '(r, s') := processContract join this s in
  let c := client this in
  let P := sessionPrompt (session s) in
  (forall request, sentDuring s s' !! 0 = Some request ->
     exists t, templateText join this s 0 t /\
       request = stepRequest c (trim t) P (historyAt s s' 0)) /\
  (forall request, sentDuring s s' !! 1 = Some request ->
     exists t r0 u0,
       templateText join this s 1 t /\ respondedAt s s' 0 r0 /\ answeredAt s s' 0 u0 /\
       request = stepRequest c (trim t)
                   (lit "User Request: " ++ P ++ [LF; LF]
                    ++ lit "Intake Information: " ++ completion r0 ++ [LF; LF]
                    ++ lit "Additional Details: " ++ u0)
                   (historyAt s s' 1)) /\
  (forall request, sentDuring s s' !! 2 = Some request ->
     exists t r1 u1,
       templateText join this s 2 t /\ respondedAt s s' 1 r1 /\ answeredAt s s' 1 u1 /\
       request = stepRequest c (trim t)
                   (lit "User Request: " ++ P ++ [LF; LF]
                    ++ lit "Confirmed Specifications: " ++ completion r1 ++ [LF; LF]
                    ++ lit "User Confirmation: " ++ u1)
                   (historyAt s s' 2)) /\
  (forall request, sentDuring s s' !! 3 = Some request ->
     exists t r2 u2,
       templateText join this s 3 t /\ respondedAt s s' 2 r2 /\ answeredAt s s' 2 u2 /\
       request = stepRequest c (trim t)
                   (lit "User Request: " ++ P ++ [LF; LF]
                    ++ lit "Contract Draft: " ++ completion r2 ++ [LF; LF]
                    ++ lit "User Feedback: " ++ u2)
                   (historyAt s s' 3)) /\
  (forall request, sentDuring s s' !! 4 = Some request ->
     exists t r2 r3 u3,
       templateText join this s 4 t /\ respondedAt s s' 2 r2 /\ respondedAt s s' 3 r3 /\
       answeredAt s s' 3 u3 /\
       request = stepRequest c (trim t)
                   (lit "User Request: " ++ P ++ [LF; LF]
                    ++ lit "Final Contract: " ++ completion r2 ++ [LF; LF]
                    ++ lit "Verification Notes: " ++ completion r3 ++ [LF; LF]
                    ++ lit "Final Adjustments: " ++ u3)
                   (historyAt s s' 4)) /\
  (forall request, sentDuring s s' !! 5 = Some request ->
     exists r2 r3 u3 u4,
       respondedAt s s' 2 r2 /\ respondedAt s s' 3 r3 /\
       answeredAt s s' 3 u3 /\ answeredAt s s' 4 u4 /\
       request = stepRequest c
                   (finalPromptText (completion r2) (completion r3) u3 u4)
                   (lit "Generate the final German freelance contract")
                   (historyAt s s' 5)) /\
  (forall r2, respondedAt s s' 2 r2 -> contractDraft (session s') = Some (completion r2)) /\
  length (sentDuring s s') <= 6 /\
  ((forall k request cause,
      sentDuring s s' !! k = Some request ->
      provider s (requests s ++ take k (sentDuring s s')) request = Failed cause ->
      r = Throw (wrapped cause) /\ length (sentDuring s s') = S k) /\
   (forall k request message,
      sentDuring s s' !! k = Some request ->
      provider s (requests s ++ take k (sentDuring s s')) request
        = Resolved (Unshaped message) ->
      r = Throw (wrapped (typeError message)) /\ length (sentDuring s s') = S k)) /\
  asked (eventsDuring s s')
    = take (completedStages (eventsDuring s s')) feedbackQuestions /\
  fs s' = fs s /\
  now s' = now s /\
  sessionPrompt (session s') = sessionPrompt (session s) /\
  match r with
  | Ok text => finalContract (session s') = Some text
  | _ => finalContract (session s') = finalContract (session s)
  end.
Proof.
  unfold processContract. rewrite tryCatch_rethrow.
  match goal with
  | |- match ?X with (r, s') => @?Q r s' end =>
      pose (post := Q);
      change (let '(r, s') := X in post r s');
      assert (Hpost : post = Q) by reflexivity; clearbody post
  end.
  hide_literals.
  repeat run_step.
  all: unfold ret; cbv beta iota zeta.
  all: observe s.
  all: norm_hyps.
  all: subst post; cbv beta iota zeta;
    unfold templateText, respondedAt, answeredAt, historyAt, feedbackQuestions, templates;
    rewrite ?Hsent, ?Hanswers, ?Hadded, ?Hdraft, ?Hasked, ?Hcompleted, ?Hfinal.
  all: split_and!.
  all: try assumption.
  all: try reflexivity.
  all: try (cbn [length]; lia).
  all: try (intros k request cause Hk Hfail;
            destruct k as [| [| [| [| [| [| k]]]]]];
            cbn [lookup list_lookup] in Hk; try discriminate Hk;
            injection Hk as <-; cbv [take] in Hfail; rewrite ?app_nil_r in Hfail;
            match goal with
            | H : provider _ _ _ = _ |- _ =>
                let E := fresh "E" in
                pose proof (eq_trans (eq_sym H) Hfail) as E;
                first [discriminate E | injection E as <-; split; reflexivity]
            end).
  all: try (intros request Hreq; cbn [lookup list_lookup] in Hreq; discriminate Hreq).
  all: try (intros dresp (request & Hreq & Hresp);
            cbn [lookup list_lookup] in Hreq; try discriminate Hreq;
            injection Hreq as <-;
            match goal with
            | H : provider _ _ _ = _ |- _ =>
                let E := fresh "E" in
                pose proof (eq_trans (eq_sym H) Hresp) as E;
                first [discriminate E | injection E as <-; reflexivity]
            end).
  all: intros request Hreq; cbn [lookup list_lookup] in Hreq; injection Hreq as <-;
    ex_all; split_and!; solve_fact.
Qed.

(** ** The stage requests *)


(** X1. The first request of a run is the Intake call: the trimmed intake
    template as system prompt, the history as it stood, and the user prompt
    of the session, alone, as user message. *)
Theorem intake_request_carries_the_user_prompt :
  forall join this s,
    let '(r, s') := processContract join this s in
    forall request, sentDuring s s' !! 0 = Some request ->
      exists template,
        fs s !! join (directory (config this)) (lit "intake.txt") = Some template /\
        req_messages request =
          [ {| role := system; content := trim template |} ] ++ history s
          ++ [ {| role := user; content := sessionPrompt (session s) |} ].
Proof.
  intros join this s.
  pose proof (processContract_summary join this s) as H.
  destruct (processContract join this s) as [r s'].
  destruct H as (H & _).
  intros request Hreq. destruct (H request Hreq) as (t & (file & Hf & Ht) & ->).
  injection Hf as <-. exists t. split; [exact Ht |].
  unfold historyAt. cbn [Nat.mul take]. rewrite app_nil_r. reflexivity.
Qed.

(** X2. The second request is the Confirm call: its user message is the user
    prompt, the completion of the Intake call and the answer to the first
    question, each under its label. *)
Theorem confirm_message_contents :
  forall join this s,
    let '(r, s') := processContract join this s in
    forall request, sentDuring s s' !! 1 = Some request ->
      exists intake details,
        respondedAt s s' 0 intake /\ answeredAt s s' 0 details /\
        last (req_messages request) =
          Some {| role := user;
                  content :=
                    lit "User Request: " ++ sessionPrompt (session s) ++ [LF; LF]
                    ++ lit "Intake Information: " ++ completion intake ++ [LF; LF]
                    ++ lit "Additional Details: " ++ details |}.
Proof.
  intros join this s.
  pose proof (processContract_summary join this s) as H.
  destruct (processContract join this s) as [r s'].
  destruct H as (_ & H & _).
  intros request Hreq. destruct (H request Hreq) as (t & r0 & u0 & _ & Hr & Hu & ->).
  exists r0, u0. split_and!; [exact Hr | exact Hu | apply stepRequest_last].
Qed.

(** X3. The third request is the Draft call: its user message is the user
    prompt, the completion of the Confirm call and the answer to the second
    question, each under its label.  Once the provider has answered it, the
    draft of the session is its completion. *)
Theorem draft_message_contents :
  forall join this s,
    let '(r, s') := processContract join this s in
    (forall request, sentDuring s s' !! 2 = Some request ->
       exists confirmation feedback,
         respondedAt s s' 1 confirmation /\ answeredAt s s' 1 feedback /\
         last (req_messages request) =
           Some {| role := user;
                   content :=
                     lit "User Request: " ++ sessionPrompt (session s) ++ [LF; LF]
                     ++ lit "Confirmed Specifications: " ++ completion confirmation
                     ++ [LF; LF]
                     ++ lit "User Confirmation: " ++ feedback |}) /\
    (forall draft, respondedAt s s' 2 draft ->
       contractDraft (session s') = Some (completion draft)).
Proof.
  intros join this s.
  pose proof (processContract_summary join this s) as H.
  destruct (processContract join this s) as [r s'].
  destruct H as (_ & _ & H & _ & _ & _ & Hd & _).
  split; [| exact Hd].
  intros request Hreq. destruct (H request Hreq) as (t & r1 & u1 & _ & Hr & Hu & ->).
  exists r1, u1. split_and!; [exact Hr | exact Hu | apply stepRequest_last].
Qed.

(** X4. The fourth request is the Verify call: its user message is the user
    prompt, the completion of the Draft call and the answer to the third
    question, each under its label. *)
Theorem verify_message_contents :
  forall join this s,
    let '(r, s') := processContract join this s in
    forall request, sentDuring s s' !! 3 = Some request ->
      exists draft feedback,
        respondedAt s s' 2 draft /\ answeredAt s s' 2 feedback /\
        last (req_messages request) =
          Some {| role := user;
                  content :=
                    lit "User Request: " ++ sessionPrompt (session s) ++ [LF; LF]
                    ++ lit "Contract Draft: " ++ completion draft ++ [LF; LF]
                    ++ lit "User Feedback: " ++ feedback |}.
Proof.
  intros join this s.
  pose proof (processContract_summary join this s) as H.
  destruct (processContract join this s) as [r s'].
  destruct H as (_ & _ & _ & H & _).
  intros request Hreq. destruct (H request Hreq) as (t & r2 & u2 & _ & Hr & Hu & ->).
  exists r2, u2. split_and!; [exact Hr | exact Hu | apply stepRequest_last].
Qed.

(** X5. The sixth request is the final call: its system prompt is
    [finalPromptText] of the completions of the Draft and Verify calls and of
    the answers to the fourth and fifth questions, and its user message is the
    fixed instruction. *)
Theorem final_prompt_contents :
  forall join this s,
    let '(r, s') := processContract join this s in
    forall request, sentDuring s s' !! 5 = Some request ->
      exists draft verification adjustments notes,
        respondedAt s s' 2 draft /\ respondedAt s s' 3 verification /\
        answeredAt s s' 3 adjustments /\ answeredAt s s' 4 notes /\
        head (req_messages request) =
          Some {| role := system;
                  content := finalPromptText (completion draft) (completion verification)
                               adjustments notes |} /\
        last (req_messages request) =
          Some {| role := user;
                  content := lit "Generate the final German freelance contract" |}.
Proof.
  intros join this s.
  pose proof (processContract_summary join this s) as H.
  destruct (processContract join this s) as [r s'].
  destruct H as (_ & _ & _ & _ & _ & H & _).
  intros request Hreq.
  destruct (H request Hreq) as (r2 & r3 & u3 & u4 & H2 & H3 & H4 & H5 & ->).
  exists r2, r3, u3, u4.
  split_and!; try assumption; [apply stepRequest_head | apply stepRequest_last].
Qed.

(** X6. The system prompt of each of the first five requests is the trimmed
    text of the template file of its stage, in the order intake,
    confirm_specs, draft, verify, explain. *)
Theorem stage_requests_use_the_trimmed_templates :
  forall join this s,
    let '(r, s') := processContract join this s in
    forall k request, k < 5 -> sentDuring s s' !! k = Some request ->
      exists text,
        templateText join this s k text /\
        head (req_messages request) = Some {| role := system; content := trim text |}.
Proof.
  intros join this s.
  pose proof (processContract_summary join this s) as H.
  destruct (processContract join this s) as [r s'].
  destruct H as (H0 & H1 & H2 & H3 & H4 & _).
  intros k request Hk Hreq.
  destruct k as [| [| [| [| [| k]]]]]; [| | | | | lia].
  - destruct (H0 request Hreq) as (t & Ht & ->). exists t. split; [exact Ht | reflexivity].
  - destruct (H1 request Hreq) as (t & ? & ? & Ht & _ & _ & ->).
    exists t. split; [exact Ht | reflexivity].
  - destruct (H2 request Hreq) as (t & ? & ? & Ht & _ & _ & ->).
    exists t. split; [exact Ht | reflexivity].
  - destruct (H3 request Hreq) as (t & ? & ? & Ht & _ & _ & ->).
    exists t. split; [exact Ht | reflexivity].
  - destruct (H4 request Hreq) as (t & ? & ? & ? & Ht & _ & _ & _ & ->).
    exists t. split; [exact Ht | reflexivity].
Qed.

(** X7. Every request of a run carries, between its system prompt and its
    user message, the history the run started with followed by the entries of
    all the stage calls completed before it, in order: the first [2 * k]
    entries the run added, for the request of index [k]. *)
Theorem every_request_carries_the_accumulated_history :
  forall join this s,
    let '(r, s') := processContract join this s in
    forall k request, sentDuring s s' !! k = Some request ->
      exists systemPrompt userMessage,
        req_messages request =
          [ {| role := system; content := systemPrompt |} ]
          ++ (history s ++ take (2 * k) (addedDuring s s'))
          ++ [ {| role := user; content := userMessage |} ].
Proof.
  intros join this s.
  pose proof (processContract_summary join this s) as H.
  destruct (processContract join this s) as [r s'].
  destruct H as (H0 & H1 & H2 & H3 & H4 & H5 & _ & Hlen & _).
  intros k request Hreq.
  destruct k as [| [| [| [| [| [| k]]]]]].
  - destruct (H0 request Hreq) as (t & _ & ->). eexists _, _. reflexivity.
  - destruct (H1 request Hreq) as (t & ? & ? & _ & _ & _ & ->). eexists _, _. reflexivity.
  - destruct (H2 request Hreq) as (t & ? & ? & _ & _ & _ & ->). eexists _, _. reflexivity.
  - destruct (H3 request Hreq) as (t & ? & ? & _ & _ & _ & ->). eexists _, _. reflexivity.
  - destruct (H4 request Hreq) as (t & ? & ? & ? & _ & _ & _ & _ & ->).
    eexists _, _. reflexivity.
  - destruct (H5 request Hreq) as (? & ? & ? & ? & _ & _ & _ & _ & ->).
    eexists _, _. reflexivity.
  - apply lookup_lt_Some in Hreq. lia.
Qed.

(** X8. No request follows a failed one: when the provider fails on a
    request, that request is the last of the run and the run throws the
    wrapped error of that failure; every request before the last one was
    answered.  A body without [choices] ends the run in the same way, with
    the wrapped [TypeError]. *)
Theorem provider_failure_ends_the_run :
  forall join this s,
    let '(r, s') := processContract join this s in
    (forall k request cause,
       sentDuring s s' !! k = Some request ->
       provider s (requests s ++ take k (sentDuring s s')) request = Failed cause ->
       r = Throw (wrapped cause) /\ length (sentDuring s s') = S k) /\
    (forall k request,
       sentDuring s s' !! k = Some request -> S k < length (sentDuring s s') ->
       exists response,
         provider s (requests s ++ take k (sentDuring s s')) request = Responded response) /\
    (forall k request message,
       sentDuring s s' !! k = Some request ->
       provider s (requests s ++ take k (sentDuring s s')) request
         = Resolved (Unshaped message) ->
       r = Throw (wrapped (typeError message)) /\ length (sentDuring s s') = S k).
Proof.
  intros join this s.
  pose proof (processContract_summary join this s) as H.
  destruct (processContract join this s) as [r s'].
  destruct H as (_ & _ & _ & _ & _ & _ & _ & _ & (Hfailed & Hunshaped) & _).
  split_and!; [exact Hfailed | | exact Hunshaped].
  intros k request Hreq Hlt.
  destruct (provider s (requests s ++ take k (sentDuring s s')) request)
    as [[response | message] | cause] eqn:E.
  - exists response. reflexivity.
  - destruct (Hunshaped k request message Hreq E) as (_ & Hlen). lia.
  - destruct (Hfailed k request cause Hreq E) as (_ & Hlen). lia.
Qed.

(** X9. The questions asked on the terminal during a run are the feedback
    questions of the stage calls that completed, in order, one per completed
    call: a question is asked exactly after its stage completed. *)
Theorem questions_follow_completed_stages :
  forall join this s,
    let '(r, s') := processContract join this s in
    asked (eventsDuring s s')
      = take (completedStages (eventsDuring s s')) feedbackQuestions.
Proof.
  intros join this s.
  pose proof (processContract_summary join this s) as H.
  destruct (processContract join this s) as [r s'].
  destruct H as (_ & _ & _ & _ & _ & _ & _ & _ & _ & H & _). exact H.
Qed.

(** X10. [generateContract] builds its processor with an empty history: the
    first request it sends is authenticated with the key of the configuration
    and has exactly two messages, the trimmed intake template and the user
    prompt of the configuration. *)
Theorem generateContract_starts_from_an_empty_history :
  forall join config s,
    let '(r, s') := generateContract join config s in
    forall request, sentDuring s s' !! 0 = Some request ->
      exists template,
        fs s !! join (directory config) (lit "intake.txt") = Some template /\
        bearer request = apiKey config /\
        req_messages request =
          [ {| role := system; content := trim template |};
            {| role := user; content := userPrompt config |} ].
Proof.
  intros join config s. rewrite generateContract_eq. cbv zeta.
  pose proof (processContract_summary join
                {| client := {| client_apiKey := apiKey config |}; config := config |}
                (setSession {| sessionPrompt := userPrompt config; conversationHistory := [];
                               contractDraft := None; finalContract := None |} s)) as H.
  destruct (processContract join _ _) as [[text | e |] s2]; destruct H as (H & _).
  1: pose proof (saveContract_frame
                   {| client := {| client_apiKey := apiKey config |}; config := config |}
                   (outputFile config) s2) as Hs;
     destruct (saveContract _ _ s2) as [r s']; destruct Hs as (_ & _ & Hs).
  all: intros request Hreq.
  1: unfold sentDuring in Hreq; rewrite Hs in Hreq.
  all: destruct (H request Hreq) as (t & (file & Hf & Ht) & ->).
  all: injection Hf as <-; exists t.
  all: split; [exact Ht |]; split; [reflexivity |].
  all: unfold historyAt; cbn [Nat.mul take]; rewrite app_nil_r; reflexivity.
Qed.

(** ** The terminal, the files and the commands *)


Lemma validateNonEmpty_Valid input :
  validateNonEmpty input = Valid <-> trim input <> [].
Proof.
  unfold validateNonEmpty. destruct (trim input) as [| c l]; simpl.
  - split; [discriminate | congruence].
  - split; [discriminate | reflexivity].
Qed.

(** X11. [getUserInput] never throws and returns only values that are not
    blank.  A line that is not blank is returned as typed, untrimmed; an empty
    line stands for the default; a line of white space only is rejected with a
    message and the question is asked again of the next line; with no line
    left the question stays unanswered. *)
Theorem getUserInput_accepts_only_nonblank_input :
  forall this question defaultValue s,
    let '(r, s') := getUserInput this question defaultValue s in
    (forall e, r <> Throw e) /\
    (forall value, r = Ok value -> trim value <> []) /\
    (stdin s = [] -> r = Blocked) /\
    (forall line rest, stdin s = line :: rest -> trim line <> [] ->
       r = Ok line /\ stdin s' = rest) /\
    (forall d rest, defaultValue = Some d -> stdin s = [] :: rest -> trim d <> [] ->
       r = Ok d /\ stdin s' = rest) /\
    (forall line rest, stdin s = line :: rest -> line <> [] -> trim line = [] ->
       r = fst (getUserInput this question defaultValue (setStdin rest s)) /\
       stdin s' = stdin (snd (getUserInput this question defaultValue (setStdin rest s))) /\
       Rejected line (lit "Please provide some input") ∈ eventsDuring s s').
Proof.
  intros this question defaultValue s. rewrite getUserInput_eq.
  split_and!.
  - intros e. apply askResult_not_Throw.
  - intros value H. apply validateNonEmpty_Valid. eapply askResult_valid. exact H.
  - intros ->. reflexivity.
  - intros line rest -> Hline. state_norm. cbn [askResult askRest].
    assert (filterInput defaultValue line = line) as ->.
    { destruct line; [exfalso; apply Hline; reflexivity | reflexivity]. }
    apply validateNonEmpty_Valid in Hline. rewrite Hline. split; reflexivity.
  - intros d rest -> -> Hd. state_norm. cbn [askResult askRest filterInput].
    apply validateNonEmpty_Valid in Hd. rewrite Hd. split; reflexivity.
  - intros line rest Hs Hne Hblank. rewrite getUserInput_eq. state_norm.
    rewrite Hs. cbn [askResult askRest askEvents].
    assert (filterInput defaultValue line = line) as ->.
    { destruct line; [congruence | reflexivity]. }
    assert (validateNonEmpty line = Invalid (lit "Please provide some input")) as Hv
      by (unfold validateNonEmpty; rewrite Hblank; reflexivity).
    rewrite !Hv. cbn [fst snd].
    split_and!; try reflexivity.
    unfold eventsDuring. state_norm. rewrite <- app_assoc, drop_app_length.
    cbn [app]. apply list_elem_of_further, list_elem_of_here.
Qed.

(** What a run of [generateContract] leaves on the file system. *)
Lemma generateContract_effect :
  forall join config s,
    let '(r, s') := generateContract join config s in
    match r with
    | Ok _ =>
        exists text,
          text <> [] /\
          finalContract (session s') = Some text /\
          fs s' = <[ match outputFile config with
                     | Some (p :: path) => p :: path
                     | _ => lit "german_freelance_contract_" ++ stringOfInt (now s)
                            ++ lit ".txt"
                     end := text ]> (fs s)
    | _ => fs s' = fs s
    end.
Proof.
  intros join config s. rewrite generateContract_eq. cbv zeta.
  pose proof (processContract_summary join
                {| client := {| client_apiKey := apiKey config |}; config := config |}
                (setSession {| sessionPrompt := userPrompt config; conversationHistory := [];
                               contractDraft := None; finalContract := None |} s)) as H.
  destruct (processContract join _ _) as [[text | e |] s2];
    destruct H as (_ & _ & _ & _ & _ & _ & _ & _ & _ & _ & Hfs & Hnow & _ & Hfinal);
    state_norm_in Hfs; state_norm_in Hnow; try exact Hfs.
  rewrite saveContract_eq, Hfinal.
  destruct text as [| c text]; [exact Hfs |].
  exists (c :: text). state_norm. rewrite Hfs, Hnow.
  split_and!; [discriminate | exact Hfinal | reflexivity].
Qed.

(** X12. [generateContract] writes all or nothing: when it returns, the
    file system differs from the initial one by exactly one file, which holds
    the non-empty final text of the session, at the output path of the
    configuration or else at the name stamped with the clock; when it throws
    or stays blocked, the file system is unchanged. *)
Theorem generateContract_writes_all_or_nothing :
  forall join config s,
    let '(r, s') := generateContract join config s in
    match r with
    | Ok _ =>
        exists text,
          text <> [] /\
          finalContract (session s') = Some text /\
          fs s' = <[ match outputFile config with
                     | Some (p :: path) => p :: path
                     | _ => lit "german_freelance_contract_" ++ stringOfInt (now s)
                            ++ lit ".txt"
                     end := text ]> (fs s)
    | _ => fs s' = fs s
    end.
Proof.
  exact generateContract_effect.
Qed.

Lemma getConfiguration_fs options s :
  fs (snd (getConfiguration options s)) = fs s.
Proof. unfold getConfiguration. repeat cfg_step. all: reflexivity. Qed.

Lemma getInteractiveConfiguration_fs options s :
  fs (snd (getInteractiveConfiguration options s)) = fs s.
Proof. unfold getInteractiveConfiguration. repeat cfg_step. all: reflexivity. Qed.

Lemma action_exit_status join configure :
  (forall o s1, fs (snd (configure o s1)) = fs s1) ->
  ExitStatus (action join configure).
Proof.
  intros Hframe options s. unfold action, tryCatch. rewrite bind_eq.
  specialize (Hframe options s).
  destruct (configure options s) as [[cfg | e |] s1]; simpl in Hframe.
  - rewrite bind_eq.
    pose proof (generateContract_effect join cfg s1) as H.
    destruct (generateContract join cfg s1) as [[[] | e |] s2]; unfold ret; cbv beta iota.
    + destruct H as (text & H1 & H2 & H3). split_and!.
      * left. reflexivity.
      * intros _. eexists _, text. rewrite H3, Hframe. split_and!; [exact H1 | exact H2 | reflexivity].
      * intros Hne. exfalso. apply Hne. reflexivity.
    + split_and!; [right; left; reflexivity | discriminate | intros _; congruence].
    + split_and!; [right; right; reflexivity | discriminate | intros _; congruence].
  - unfold ret. split_and!; [right; left; reflexivity | discriminate | intros _; exact Hframe].
  - split_and!; [right; right; reflexivity | discriminate | intros _; exact Hframe].
Qed.

(** X13. Neither command lets an error escape: it ends with status 0 or 1,
    or stays blocked on the terminal.  With status 0 the final contract has
    been written; otherwise no file was written or changed. *)
Theorem commands_exit_status :
  forall join, ExitStatus (generateCommand join) /\ ExitStatus (interactiveCommand join).
Proof.
  intros join. split; apply action_exit_status.
  - exact getConfiguration_fs.
  - exact getInteractiveConfiguration_fs.
Qed.

(** X14. With a key, on the flag or else in the environment, and a
    description on the [--prompt] flag, [getConfiguration] asks nothing and
    reads nothing from the terminal: it returns the configuration at once,
    with the directory of the flag or else [./prompts], and leaves the state
    as it is. *)
Theorem getConfiguration_asks_nothing_when_key_and_prompt_are_given :
  forall options s key text,
    (opt_apiKey options = Some key /\ key <> []) \/
    (truthy (opt_apiKey options) = false /\ envKey s = Some key /\ trim key <> []) ->
    opt_prompt options = Some text -> text <> [] ->
    getConfiguration options s =
    (Ok {| apiKey := key;
           directory := orElse (opt_directory options) (lit "./prompts");
           userPrompt := text;
           outputFile := opt_output options |}, s).
Proof.
  intros options s key text Hkey Hprompt Htext.
  unfold getConfiguration. rewrite Hprompt.
  destruct text as [| p text]; [congruence |].
  destruct Hkey as [[Hflag Hne] | (Hflag & Henv & Htrim)].
  - rewrite Hflag. destruct key as [| c key]; [congruence |]. reflexivity.
  - destruct (opt_apiKey options) as [[| c k] |]; try discriminate Hflag.
    all: rewrite bind_eq, bind_gets, Henv.
    all: destruct key as [| c key]; [exfalso; apply Htrim; reflexivity |].
    all: destruct (trim (c :: key)) eqn:E; [congruence |]; reflexivity.
Qed.

(** X15. [getInteractiveConfiguration] reads neither the [--prompt] nor
    the [--output] flag: two command lines that agree on the key and the
    directory behave alike.  The output file of its configuration is the
    answer to the output question, and is absent when that answer is empty. *)
Theorem interactive_configuration_ignores_prompt_and_output_flags :
  (forall o1 o2 s,
     opt_apiKey o1 = opt_apiKey o2 -> opt_directory o1 = opt_directory o2 ->
     getInteractiveConfiguration o1 s = getInteractiveConfiguration o2 s) /\
  (forall options s,
     let '(r, s') := getInteractiveConfiguration options s in
     forall cfg, r = Ok cfg ->
       directory cfg = orElse (opt_directory options) (lit "./prompts") /\
       exists answer,
         last (answers (eventsDuring s s')) = Some (outputQuestion, answer) /\
         outputFile cfg = match answer with [] => None | _ => Some answer end).
Proof.
  split.
  - intros o1 o2 s Hk Hd. unfold getInteractiveConfiguration. rewrite Hk, Hd. reflexivity.
  - intros options s. unfold getInteractiveConfiguration, outputQuestion.
    repeat cfg_step. all: unfold ret. all: events_norm.
    all: intros cfg Hcfg; try discriminate Hcfg; injection Hcfg as <-.
    all: cbn [directory outputFile]; (split; [reflexivity |]).
    all: eexists; (split; [reflexivity |]).
    all: unfold orUndefined, truthy;
      match goal with |- context [match ?a with _ => _ end] => is_var a; destruct a end;
      reflexivity.
Qed.

(** *** trim *)


Lemma trimStart_split text :
  exists before,
    text = before ++ trimStart text /\
    Forall (fun c => isWhiteSpace c = true) before /\
    match trimStart text with
    | c :: _ => isWhiteSpace c = false
    | [] => True
    end.
Proof.
  induction text as [| c rest IH]; simpl.
  - exists []. split_and!; [reflexivity | constructor | exact I].
  - destruct (isWhiteSpace c) eqn:E.
    + destruct IH as (before & H1 & H2 & H3).
      exists (c :: before). simpl. rewrite <- H1.
      split_and!; [reflexivity | constructor; assumption | exact H3].
    + exists []. split_and!; [reflexivity | constructor | exact E].
Qed.

Lemma trim_split text :
  exists before after,
    text = before ++ trim text ++ after /\
    Forall (fun c => isWhiteSpace c = true) before /\
    Forall (fun c => isWhiteSpace c = true) after /\
    match head (trim text) with Some c => isWhiteSpace c = false | None => True end /\
    match last (trim text) with Some c => isWhiteSpace c = false | None => True end.
Proof.
  unfold trim, trimEnd.
  destruct (trimStart_split text) as (before & H1 & H2 & H3).
  destruct (trimStart_split (rev (trimStart text))) as (after & H4 & H5 & H6).
  exists before, (rev after).
  assert (trimStart text = rev (trimStart (rev (trimStart text))) ++ rev after) as H7.
  { rewrite <- rev_app_distr, <- H4, rev_involutive. reflexivity. }
  split_and!.
  - rewrite <- H7. exact H1.
  - exact H2.
  - apply Forall_rev. exact H5.
  - destruct (trimStart (rev (trimStart text))) as [| c l] eqn:E; [exact I |].
    (* head of the trimmed text is the head of trimStart text *)
    rewrite H7 in H3.
    destruct (rev (c :: l)) as [| d l'] eqn:E'.
    + apply (f_equal (@length N)) in E'. rewrite length_rev in E'. discriminate E'.
    + simpl in *. exact H3.
  - destruct (trimStart (rev (trimStart text))) as [| c l] eqn:E; [exact I |].
    simpl rev. rewrite last_snoc. exact H6.
Qed.

(** X16. For a file that exists, [loadPromptFile] returns its text without
    the white space at both ends, and nothing else removed: the text is white
    space, then the prompt, then white space, and the prompt neither starts
    nor ends with white space.  The state is unchanged. *)
Theorem loadPromptFile_returns_trimmed_contents :
  forall join this filename s text,
    fs s !! join (directory (config this)) filename = Some text ->
    exists prompt before after,
      loadPromptFile join this filename s = (Ok prompt, s) /\
      text = before ++ prompt ++ after /\
      Forall (fun c => isWhiteSpace c = true) before /\
      Forall (fun c => isWhiteSpace c = true) after /\
      match head prompt with Some c => isWhiteSpace c = false | None => True end /\
      match last prompt with Some c => isWhiteSpace c = false | None => True end.
Proof.
  intros join this filename s text Hfile.
  destruct (trim_split text) as (before & after & H).
  exists (trim text), before, after.
  rewrite loadPromptFile_eq, Hfile. split; [reflexivity | exact H].
Qed.

(** *** Time-stamped names *)


Lemma lit_inj a b : lit a = lit b -> a = b.
Proof.
  unfold lit. revert b. induction a as [| x a IH]; intros [| y b]; simpl; try discriminate.
  - reflexivity.
  - intros [= Hxy Hab]. f_equal.
    + rewrite <- (ascii_N_embedding x), <- (ascii_N_embedding y), Hxy. reflexivity.
    + apply IH, Hab.
Qed.

Lemma stringOfInt_inj t1 t2 : stringOfInt t1 = stringOfInt t2 -> t1 = t2.
Proof.
  unfold stringOfInt. intros H. apply lit_inj in H.
  apply DecimalZ.to_int_inj.
  assert (forall t, Z.to_int t <> Decimal.Pos Decimal.Nil /\ Z.to_int t <> Decimal.Neg Decimal.Nil) as Hnn.
  { intros [| p | p]; simpl; split; try discriminate;
      intros [= E]; exact (DecimalPos.Unsigned.to_uint_nonnil p E). }
  destruct (Hnn t1) as [A1 B1]. destruct (Hnn t2) as [A2 B2].
  pose proof (NilZero.isi _ A1 B1) as E1. pose proof (NilZero.isi _ A2 B2) as E2.
  rewrite H in E1. rewrite E1 in E2. injection E2 as E2. exact E2.
Qed.

(** X17. A save without an output path writes the file named after the
    current clock only: the default file of any other clock value is left as
    it is, so contracts saved at different times do not overwrite each
    other. *)
Theorem default_output_names_differ_with_the_clock :
  forall this s other,
    truthy (finalContract (session s)) = true ->
    other <> now s ->
    let otherName := lit "german_freelance_contract_" ++ stringOfInt other ++ lit ".txt" in
    fs (snd (saveContract this None s)) !! otherName = fs s !! otherName.
Proof.
  intros this s other Hfinal Hother. cbv zeta. rewrite saveContract_eq.
  destruct (finalContract (session s)) as [[| c text] |]; try discriminate Hfinal.
  cbn [snd]. state_norm. apply lookup_insert_ne.
  intros E. apply app_inv_head in E. apply app_inv_tail in E.
  apply stringOfInt_inj in E. congruence.
Qed.

(** ** The properties on the sample world *)

(** The request of index [k] of the sample run. *)
Ltac sample_request k :=
  lazymatch goal with
  | H : let '(r, s') := ?run in _ |- _ =>
      let Hreq := fresh "Hreq" in
      let request := fresh "request" in
      assert (exists request, sentDuring sampleStarted (snd run) !! k = Some request)
        as [request Hreq] by (eexists; vm_compute; reflexivity);
      destruct run as [r s']; cbn [snd] in Hreq
  end.

Lemma intake_request_carries_the_user_prompt_witness :
  let '(r, s') := processContract sampleJoin sampleProcessor sampleStarted in
  exists request template,
    sentDuring sampleStarted s' !! 0 = Some request /\
    fs sampleStarted !! sampleJoin (directory (config sampleProcessor)) (lit "intake.txt")
      = Some template /\
    req_messages request =
      [ {| role := system; content := trim template |} ] ++ history sampleStarted
      ++ [ {| role := user; content := sessionPrompt (session sampleStarted) |} ].
Proof.
  pose proof (intake_request_carries_the_user_prompt sampleJoin sampleProcessor sampleStarted)
    as H.
  sample_request 0.
  destruct (H request Hreq) as (template & Hfile & Hmessages).
  exists request, template. split_and!; assumption.
Defined.

Lemma confirm_message_contents_witness :
  let '(r, s') := processContract sampleJoin sampleProcessor sampleStarted in
  exists request intake details,
    sentDuring sampleStarted s' !! 1 = Some request /\
    respondedAt sampleStarted s' 0 intake /\ answeredAt sampleStarted s' 0 details /\
    last (req_messages request) =
      Some {| role := user;
              content :=
                lit "User Request: " ++ sessionPrompt (session sampleStarted) ++ [LF; LF]
                ++ lit "Intake Information: " ++ completion intake ++ [LF; LF]
                ++ lit "Additional Details: " ++ details |}.
Proof.
  pose proof (confirm_message_contents sampleJoin sampleProcessor sampleStarted) as H.
  sample_request 1.
  destruct (H request Hreq) as (intake & details & Hintake & Hdetails & Hlast).
  exists request, intake, details. split_and!; assumption.
Defined.

Lemma draft_message_contents_witness :
  let '(r, s') := processContract sampleJoin sampleProcessor sampleStarted in
  exists request confirmation feedback,
    sentDuring sampleStarted s' !! 2 = Some request /\
    respondedAt sampleStarted s' 1 confirmation /\ answeredAt sampleStarted s' 1 feedback /\
    last (req_messages request) =
      Some {| role := user;
              content :=
                lit "User Request: " ++ sessionPrompt (session sampleStarted) ++ [LF; LF]
                ++ lit "Confirmed Specifications: " ++ completion confirmation ++ [LF; LF]
                ++ lit "User Confirmation: " ++ feedback |}.
Proof.
  pose proof (draft_message_contents sampleJoin sampleProcessor sampleStarted) as H.
  sample_request 2.
  destruct H as [H _].
  destruct (H request Hreq) as (confirmation & feedback & Hresp & Hans & Hlast).
  exists request, confirmation, feedback. split_and!; assumption.
Defined.

Lemma verify_message_contents_witness :
  let '(r, s') := processContract sampleJoin sampleProcessor sampleStarted in
  exists request draft feedback,
    sentDuring sampleStarted s' !! 3 = Some request /\
    respondedAt sampleStarted s' 2 draft /\ answeredAt sampleStarted s' 2 feedback /\
    last (req_messages request) =
      Some {| role := user;
              content :=
                lit "User Request: " ++ sessionPrompt (session sampleStarted) ++ [LF; LF]
                ++ lit "Contract Draft: " ++ completion draft ++ [LF; LF]
                ++ lit "User Feedback: " ++ feedback |}.
Proof.
  pose proof (verify_message_contents sampleJoin sampleProcessor sampleStarted) as H.
  sample_request 3.
  destruct (H request Hreq) as (draft & feedback & Hresp & Hans & Hlast).
  exists request, draft, feedback. split_and!; assumption.
Defined.

Lemma final_prompt_contents_witness :
  let '(r, s') := processContract sampleJoin sampleProcessor sampleStarted in
  exists request draft verification adjustments notes,
    sentDuring sampleStarted s' !! 5 = Some request /\
    respondedAt sampleStarted s' 2 draft /\ respondedAt sampleStarted s' 3 verification /\
    answeredAt sampleStarted s' 3 adjustments /\ answeredAt sampleStarted s' 4 notes /\
    head (req_messages request) =
      Some {| role := system;
              content := finalPromptText (completion draft) (completion verification)
                           adjustments notes |}.
Proof.
  pose proof (final_prompt_contents sampleJoin sampleProcessor sampleStarted) as H.
  sample_request 5.
  destruct (H request Hreq)
    as (draft & verification & adjustments & notes & H1 & H2 & H3 & H4 & H5 & _).
  exists request, draft, verification, adjustments, notes. split_and!; assumption.
Defined.

Lemma stage_requests_use_the_trimmed_templates_witness :
  let '(r, s') := processContract sampleJoin sampleProcessor sampleStarted in
  exists request text,
    sentDuring sampleStarted s' !! 2 = Some request /\
    templateText sampleJoin sampleProcessor sampleStarted 2 text /\
    head (req_messages request) = Some {| role := system; content := trim text |}.
Proof.
  pose proof (stage_requests_use_the_trimmed_templates sampleJoin sampleProcessor sampleStarted)
    as H.
  sample_request 2.
  destruct (H 2 request ltac:(lia) Hreq) as (text & Htext & Hhead).
  exists request, text. split_and!; assumption.
Defined.

Lemma every_request_carries_the_accumulated_history_witness :
  let '(r, s') := processContract sampleJoin sampleProcessor sampleStarted in
  exists request systemPrompt userMessage,
    sentDuring sampleStarted s' !! 3 = Some request /\
    req_messages request =
      [ {| role := system; content := systemPrompt |} ]
      ++ (history sampleStarted ++ take (2 * 3) (addedDuring sampleStarted s'))
      ++ [ {| role := user; content := userMessage |} ].
Proof.
  pose proof (every_request_carries_the_accumulated_history sampleJoin sampleProcessor
                sampleStarted) as H.
  sample_request 3.
  destruct (H 3 request Hreq) as (systemPrompt & userMessage & Hmessages).
  exists request, systemPrompt, userMessage. split_and!; assumption.
Defined.

Lemma provider_failure_ends_the_run_witness :
  let '(r, s') := processContract sampleJoin sampleProcessor failingVerifyState in
  r = Throw (wrapped (ErrorObject (SubclassError (lit "RateLimitError"))
                        (lit "429 Too Many Requests"))) /\
  length (sentDuring failingVerifyState s') = 4.
Proof.
  pose proof (provider_failure_ends_the_run sampleJoin sampleProcessor failingVerifyState) as H.
  assert (exists request,
            sentDuring failingVerifyState
              (snd (processContract sampleJoin sampleProcessor failingVerifyState)) !! 3
              = Some request /\
            provider failingVerifyState
              (requests failingVerifyState
               ++ take 3 (sentDuring failingVerifyState
                            (snd (processContract sampleJoin sampleProcessor
                                    failingVerifyState))))
              request
            = Failed (ErrorObject (SubclassError (lit "RateLimitError"))
                        (lit "429 Too Many Requests")))
    as (request & Hreq & Hfail)
    by (eexists; split; vm_compute; reflexivity).
  destruct (processContract sampleJoin sampleProcessor failingVerifyState) as [r s'].
  cbn [snd] in Hreq, Hfail. destruct H as [H _].
  exact (H 3 request _ Hreq Hfail).
Defined.

Lemma generateContract_starts_from_an_empty_history_witness :
  let '(r, s') := generateContract sampleJoin sampleConfig sampleState in
  exists request template,
    sentDuring sampleState s' !! 0 = Some request /\
    fs sampleState !! sampleJoin (directory sampleConfig) (lit "intake.txt") = Some template /\
    bearer request = apiKey sampleConfig /\
    req_messages request =
      [ {| role := system; content := trim template |};
        {| role := user; content := userPrompt sampleConfig |} ].
Proof.
  pose proof (generateContract_starts_from_an_empty_history sampleJoin sampleConfig sampleState)
    as H.
  assert (exists request,
            sentDuring sampleState (snd (generateContract sampleJoin sampleConfig sampleState))
              !! 0 = Some request) as [request Hreq]
    by (eexists; vm_compute; reflexivity).
  destruct (generateContract sampleJoin sampleConfig sampleState) as [r s'].
  cbn [snd] in Hreq.
  destruct (H request Hreq) as (template & Hfile & Hbearer & Hmessages).
  exists request, template. split_and!; assumption.
Defined.

Lemma getUserInput_accepts_only_nonblank_input_witness :
  let '(r, s') := getUserInput sampleProcessor (lit "Details:") None typingState in
  r = Ok (lit "  web  ") /\ stdin s' = [lit "Web shop for a Berlin startup"].
Proof.
  pose proof (getUserInput_accepts_only_nonblank_input sampleProcessor (lit "Details:") None
                typingState) as H.
  destruct (getUserInput sampleProcessor (lit "Details:") None typingState) as [r s'].
  destruct H as (_ & _ & _ & H & _).
  apply (H (lit "  web  ") [lit "Web shop for a Berlin startup"]).
  - reflexivity.
  - vm_compute. discriminate.
Defined.

Lemma commands_exit_status_witness :
  let '(r, s') := generateCommand sampleJoin flagOptions sampleState in
  r = Ok 0%Z /\
  exists filename text,
    text <> [] /\ finalContract (session s') = Some text /\
    fs s' = <[ filename := text ]> (fs sampleState).
Proof.
  pose proof (proj1 (commands_exit_status sampleJoin) flagOptions sampleState) as H.
  assert (fst (generateCommand sampleJoin flagOptions sampleState) = Ok 0%Z) as Hexit
    by (vm_compute; reflexivity).
  destruct (generateCommand sampleJoin flagOptions sampleState) as [r s'].
  cbn [fst] in Hexit. destruct H as (_ & H & _).
  split; [exact Hexit | exact (H Hexit)].
Defined.

Lemma getConfiguration_asks_nothing_when_key_and_prompt_are_given_witness :
  getConfiguration flagOptions sampleState =
  (Ok {| apiKey := lit "sk-flag";
         directory := orElse (opt_directory flagOptions) (lit "./prompts");
         userPrompt := lit "Berlin startup needs a 3-month freelance dev contract";
         outputFile := opt_output flagOptions |}, sampleState).
Proof.
  apply (getConfiguration_asks_nothing_when_key_and_prompt_are_given flagOptions sampleState).
  - left. split; [reflexivity | vm_compute; discriminate].
  - reflexivity.
  - vm_compute. discriminate.
Defined.

Lemma interactive_configuration_ignores_prompt_and_output_flags_witness :
  let '(r, s') := getInteractiveConfiguration flagOptions interactiveState in
  exists cfg,
    r = Ok cfg /\ directory cfg = lit "prompts" /\ outputFile cfg = None.
Proof.
  pose proof (proj2 interactive_configuration_ignores_prompt_and_output_flags flagOptions
                interactiveState) as H.
  assert (exists cfg,
            fst (getInteractiveConfiguration flagOptions interactiveState) = Ok cfg /\
            last (answers (eventsDuring interactiveState
                             (snd (getInteractiveConfiguration flagOptions interactiveState))))
            = Some (outputQuestion, []))
    as (cfg & Hcfg & Hlast)
    by (eexists; split; vm_compute; reflexivity).
  destruct (getInteractiveConfiguration flagOptions interactiveState) as [r s'].
  cbn [fst snd] in Hcfg, Hlast.
  destruct (H cfg Hcfg) as (Hdir & answer & Hanswer & Hout).
  exists cfg. split_and!; [exact Hcfg | exact Hdir |].
  rewrite Hlast in Hanswer. injection Hanswer as <-. exact Hout.
Defined.

Lemma loadPromptFile_returns_trimmed_contents_witness :
  exists prompt before after,
    loadPromptFile sampleJoin sampleProcessor (lit "intake.txt") sampleStarted
      = (Ok prompt, sampleStarted) /\
    lit "  Gather the contract details.  " = before ++ prompt ++ after /\
    Forall (fun c => isWhiteSpace c = true) before /\
    Forall (fun c => isWhiteSpace c = true) after /\
    match head prompt with Some c => isWhiteSpace c = false | None => True end /\
    match last prompt with Some c => isWhiteSpace c = false | None => True end.
Proof.
  apply (loadPromptFile_returns_trimmed_contents sampleJoin sampleProcessor (lit "intake.txt")
           sampleStarted).
  vm_compute. reflexivity.
Defined.

Lemma default_output_names_differ_with_the_clock_witness :
  let s := setSession {| sessionPrompt := []; conversationHistory := [];
                         contractDraft := None;
                         finalContract := Some (lit "FINAL_TEXT") |} sampleState in
  let otherName := lit "german_freelance_contract_" ++ stringOfInt 1700000000001
                   ++ lit ".txt" in
  fs (snd (saveContract sampleProcessor None s)) !! otherName = fs s !! otherName.
Proof.
  apply (default_output_names_differ_with_the_clock sampleProcessor).
  - reflexivity.
  - vm_compute. discriminate.
Defined.
